(** * The product add-on controller ([assets/product-addon.js])

    A shallow embedding of the [ProductAddon] class: the DOM reads it
    performs, its two listeners, and the asynchronous [handleCartAdd]
    handler, the latter as an event loop whose suspended invocations are
    explicit.  [console.log] calls are not part of the model. *)

From Stdlib Require Import ZArith Lia.
From stdpp Require Import base option gmap sets list strings pretty.

Local Open Scope Z_scope.

(** ** JavaScript values the controller inspects *)

(** Truthiness of an optional string ([undefined] and [''] are falsy). *)
Definition truthy_str (o : option string) : bool :=
  match o with
  | Some s => negb (String.eqb s "")
  | None => false
  end.

(** Truthiness of an optional boolean ([undefined] is falsy). *)
Definition truthy_bool (o : option bool) : bool :=
  match o with
  | Some b => b
  | None => false
  end.

(** [o === tag] for an optional string [o]. *)
Definition str_is (o : option string) (tag : string) : bool :=
  match o with
  | Some s => String.eqb s tag
  | None => false
  end.

(** ** The DOM the controller reads *)

(** [dataset] of an add-on container: the three [data-addon-*] attributes,
    each [undefined] when the attribute is missing. *)
Record Dataset := {
  addonProductId : option string;
  addonVariantId : option string;
  addonPrice : option string
}.

(** The element found by [checkbox.closest('.product-addon')]; [dataset] is
    [undefined] on elements that are not HTML or SVG elements. *)
Record Container := {
  dataset : option Dataset
}.

(** An element carrying the [data-addon-checkbox] attribute, in document
    order; [closest] is [null] when no ancestor has class [product-addon]. *)
Record Checkbox := {
  checked : bool;
  closest : option Container
}.

(** An entry of the array built by [getCheckedAddons]. *)
Record Addon := {
  productId : option string;
  variantId : option string;
  price : option string
}.

(** A line item of the request body of [addToCart]. *)
Record Item := {
  id : option string;
  quantity : Z
}.

(** The text of a count display: the text the page came with, or the
    string [Number.prototype.toString] gives for an item count. *)
Inductive CountText :=
| Rendered (text : string)
| NumberToString (n : Z).

(** The characters of a count display.  [toString] prints an integer
    within ±2^53 in plain decimal; beyond that it prints the digits of the
    nearest double, or an exponent from 10^21 on, which is left
    unspecified here. *)
Definition characters (c : CountText) : option string :=
  match c with
  | Rendered text => Some text
  | NumberToString n =>
    if Z.abs n <=? 2 ^ 53 then Some (pretty n) else None
  end.

(** The part of the document the controller touches. *)
Record Page := {
  checkboxes : list Checkbox;
  (** notification elements currently attached to [document.body] *)
  notifications : list nat;
  (** number of notification elements created so far (node identity) *)
  created : nat;
  (** [textContent] of the elements matching [[data-cart-count], .cart-count] *)
  cartCounts : list CountText
}.

(** ** Events *)

Record EventData := {
  source : option string;
  didError : option bool;
  dataProductId : option string
}.

Record EventDetail := {
  detailSource : option string;
  eventId : option string;
  data : option EventData
}.

(** A [cart:update] event. *)
Record CartEvent := {
  detail : option EventDetail
}.

Definition SELF_TAG : string := "product-addon".
Definition FORM_TAG : string := "product-form-component".

(** ** Controller fields *)

Record ProductAddon := {
  pendingAddons : option (list Addon);
  isProcessingAddons : bool;
  processedEventIds : gset string;
  lastCartCountUpdate : Z
}.

(** [constructor] *)
Definition new_ProductAddon : ProductAddon :=
  {| pendingAddons := None;
     isProcessingAddons := false;
     processedEventIds := ∅;
     lastCartCountUpdate := 0 |}.

Definition set_pendingAddons (v : option (list Addon)) (c : ProductAddon) :=
  {| pendingAddons := v;
     isProcessingAddons := isProcessingAddons c;
     processedEventIds := processedEventIds c;
     lastCartCountUpdate := lastCartCountUpdate c |}.

Definition set_isProcessingAddons (v : bool) (c : ProductAddon) :=
  {| pendingAddons := pendingAddons c;
     isProcessingAddons := v;
     processedEventIds := processedEventIds c;
     lastCartCountUpdate := lastCartCountUpdate c |}.

Definition set_processedEventIds (v : gset string) (c : ProductAddon) :=
  {| pendingAddons := pendingAddons c;
     isProcessingAddons := isProcessingAddons c;
     processedEventIds := v;
     lastCartCountUpdate := lastCartCountUpdate c |}.

Definition set_lastCartCountUpdate (v : Z) (c : ProductAddon) :=
  {| pendingAddons := pendingAddons c;
     isProcessingAddons := isProcessingAddons c;
     processedEventIds := processedEventIds c;
     lastCartCountUpdate := v |}.

(** ** Synchronous methods *)

(** [isAddToCartEvent(event)] *)
Definition isAddToCartEvent (event : CartEvent) : bool :=
  match detail event with
  | None => false
  | Some d =>
    match data d with
    | None => false
    | Some dat =>
      if negb (str_is (source dat) FORM_TAG) then false
      else if truthy_bool (didError dat) then false
      else if negb (truthy_str (dataProductId dat)) then false
      else true
    end
  end.

(** The callback of [map] in [getCheckedAddons]: [null] is [None]. *)
Definition read_addon (checkbox : Checkbox) : option Addon :=
  match closest checkbox with
  | Some addonContainer =>
    match dataset addonContainer with
    | Some ds =>
      Some {| productId := addonProductId ds;
              variantId := addonVariantId ds;
              price := addonPrice ds |}
    | None => None
    end
  | None => None
  end.

(** [querySelectorAll('[data-addon-checkbox]:checked')] *)
Definition checked_checkboxes (p : Page) : list Checkbox :=
  List.filter checked (checkboxes p).

(** [getCheckedAddons()]: map every checked checkbox, then drop the
    [null]s. *)
Definition getCheckedAddons (p : Page) : list Addon :=
  omap (λ x : option Addon, x) (read_addon <$> checked_checkboxes p).

(** [handleFormSubmit(event)] *)
Definition handleFormSubmit (p : Page) (c : ProductAddon) : ProductAddon :=
  let checkedAddons := getCheckedAddons p in
  if (length checkedAddons =? 0)%nat then c
  else set_pendingAddons (Some checkedAddons) c.

(** The [map] callback building the request items. *)
Definition addon_item (addon : Addon) : Item :=
  {| id := variantId addon; quantity := 1 |}.

(** ** The event loop

    [handleCartAdd] is asynchronous: between two [await]s other callbacks
    run.  A suspended invocation is a [Task] naming the [await] it is parked
    at; the environment resumes it by firing a timer or settling a promise. *)

Inductive Task :=
| AwaitSettle (addonsToAdd : list Addon) (* the 300 ms delay *)
| AwaitAppend                            (* [fetch('/cart/add.js')] *)
| AwaitErrorBody                         (* [response.json()], response not ok *)
| AwaitAppendBody                        (* [response.json()], response ok *)
| AwaitCart                              (* [fetch('/cart.js')] *)
| AwaitCartBody.                         (* [response.json()] of the cart *)

Inductive TimerAction :=
| ResumeSettle (tid : nat)
| ClearProcessed
| RemoveNotification (node : nat).

Record Timer := {
  due : Z;
  action : TimerAction
}.

Inductive Request :=
| PostCartAdd (items : list Item)
| GetCart.

(** What the controller does to the outside world. *)
Inductive Effect :=
| Fetch (r : Request)
| DispatchCartUpdate (event : CartEvent)
| DispatchCountUpdated (count : option Z).

(** How a [fetch] promise settles. *)
Inductive FetchResult :=
| FetchRejected
| Response (ok : bool).

(** The fields read from a parsed JSON body (an object). *)
Record Json := {
  message : option string;
  item_count : option Z
}.

(** How a [response.json()] promise settles. *)
Inductive BodyResult :=
| BodyRejected
| Body (j : Json).

Record System := {
  addon : ProductAddon;
  page : Page;
  tasks : gmap nat Task;
  (** invocations of [handleCartAdd] suspended so far *)
  spawned : nat;
  timers : list Timer;
  (** the time of the callback being run, in ms ([Date.now()]) *)
  clock : Z;
  (** oldest first *)
  effects : list Effect
}.

Definition with_addon (f : ProductAddon → ProductAddon) (s : System) : System :=
  {| addon := f (addon s); page := page s; tasks := tasks s;
     spawned := spawned s; timers := timers s; clock := clock s;
     effects := effects s |}.

Definition with_page (f : Page → Page) (s : System) : System :=
  {| addon := addon s; page := f (page s); tasks := tasks s;
     spawned := spawned s; timers := timers s; clock := clock s;
     effects := effects s |}.

Definition with_tasks (f : gmap nat Task → gmap nat Task) (s : System) : System :=
  {| addon := addon s; page := page s; tasks := f (tasks s);
     spawned := spawned s; timers := timers s; clock := clock s;
     effects := effects s |}.

Definition with_timers (f : list Timer → list Timer) (s : System) : System :=
  {| addon := addon s; page := page s; tasks := tasks s;
     spawned := spawned s; timers := f (timers s); clock := clock s;
     effects := effects s |}.

Definition with_clock (t : Z) (s : System) : System :=
  {| addon := addon s; page := page s; tasks := tasks s;
     spawned := spawned s; timers := timers s; clock := t;
     effects := effects s |}.

(** [fetch] and [document.dispatchEvent] *)
Definition emit (e : Effect) (s : System) : System :=
  {| addon := addon s; page := page s; tasks := tasks s;
     spawned := spawned s; timers := timers s; clock := clock s;
     effects := effects s ++ [e] |}.

(** [setTimeout(callback, delay)] *)
Definition setTimeout (a : TimerAction) (delay : Z) (s : System) : System :=
  with_timers (λ l, l ++ [ {| due := clock s + delay; action := a |} ]) s.

(** Suspend a fresh invocation at [k]. *)
Definition spawn (k : Task) (s : System) : System :=
  {| addon := addon s; page := page s; tasks := <[spawned s := k]> (tasks s);
     spawned := S (spawned s); timers := timers s; clock := clock s;
     effects := effects s |}.

(** [has] on the processed identifiers. *)
Definition has_id (ids : gset string) (e : option string) : bool :=
  match e with
  | Some x => bool_decide (x ∈ ids)
  | None => false
  end.

(** [add] on the processed identifiers. *)
Definition add_id (e : option string) (ids : gset string) : gset string :=
  match e with
  | Some x => {[x]} ∪ ids
  | None => ids
  end.

(** [event.detail && event.detail.data && event.detail.data.source ===
    'product-addon'] *)
Definition from_self (event : CartEvent) : bool :=
  match detail event with
  | None => false
  | Some d =>
    match data d with
    | None => false
    | Some dat => str_is (source dat) SELF_TAG
    end
  end.

(** [this.pendingAddons || this.getCheckedAddons()]: an array is truthy even
    when empty. *)
Definition resolve_addons (s : System) : list Addon :=
  match pendingAddons (addon s) with
  | Some l => l
  | None => getCheckedAddons (page s)
  end.

(** [handleCartAdd] from the resolution of the add-on set up to the first
    [await]. *)
Definition enter (s : System) : System :=
  let addonsToAdd := resolve_addons s in
  if (length addonsToAdd =? 0)%nat then s
  else
    let s1 := with_addon (set_isProcessingAddons true) s in
    let s2 := setTimeout (ResumeSettle (spawned s1)) 300 s1 in
    spawn (AwaitSettle addonsToAdd) s2.

(** [handleCartAdd(event)] up to its first [await]. *)
Definition handleCartAdd (event : CartEvent) (s : System) : System :=
  if from_self event then s
  else if isProcessingAddons (addon s) then s
  else
    match detail event with
    | Some d =>
      if truthy_str (eventId d) && has_id (processedEventIds (addon s)) (eventId d)
      then s
      else if truthy_str (eventId d)
      then enter (with_addon (λ c, set_processedEventIds
                                     (add_id (eventId d) (processedEventIds c)) c) s)
      else enter s
    | None => enter s
    end.

(** The [cart:update] listener of [bindEvents]. *)
Definition on_cart_update (event : CartEvent) (s : System) : System :=
  if isAddToCartEvent event then handleCartAdd event s else s.

(** The [submit] listener of [bindEvents]; [targetMatches] is
    [event.target.matches('form[action*="/cart/add"]')]. *)
Definition on_submit (targetMatches : bool) (s : System) : System :=
  if targetMatches then with_addon (handleFormSubmit (page s)) s else s.

(** [showErrorMessage(message)] *)
Definition showErrorMessage (s : System) : System :=
  let notification := created (page s) in
  let s1 := with_page (λ p,
      {| checkboxes := checkboxes p;
         notifications := notifications p ++ [notification];
         created := S (created p);
         cartCounts := cartCounts p |}) s in
  setTimeout (RemoveNotification notification) 5000 s1.

(** The callback of the timer of [showErrorMessage]. *)
Definition remove_notification (node : nat) (s : System) : System :=
  with_page (λ p,
      {| checkboxes := checkboxes p;
         notifications := List.filter (λ n, negb (Nat.eqb n node)) (notifications p);
         created := created p;
         cartCounts := cartCounts p |}) s.

(** The [finally] block, after which the invocation is over. *)
Definition finish (tid : nat) (s : System) : System :=
  with_tasks (delete tid) (with_addon (set_isProcessingAddons false) s).

(** The [catch] block followed by [finally]. *)
Definition fail (tid : nat) (s : System) : System :=
  finish tid (showErrorMessage s).

Definition park (tid : nat) (k : Task) (s : System) : System :=
  with_tasks (<[tid := k]>) s.

(** After the delay: build the items and call [addToCart], up to its
    [fetch]. *)
Definition resume_settle (tid : nat) (addonsToAdd : list Addon) (s : System) : System :=
  let addonItems := addon_item <$> addonsToAdd in
  park tid AwaitAppend (emit (Fetch (PostCartAdd addonItems)) s).

(** The event dispatched by [triggerCartRefresh]. *)
Definition self_event : CartEvent :=
  {| detail := Some {| detailSource := Some SELF_TAG;
                       eventId := None;
                       data := Some {| source := Some SELF_TAG;
                                       didError := None;
                                       dataProductId := None |} |} |}.

(** [updateCartCount()] up to its [fetch]; when it returns at once, so do
    [triggerCartRefresh] and the [try] block of [handleCartAdd]. *)
Definition updateCartCount (tid : nat) (s : System) : System :=
  let now := clock s in
  if now - lastCartCountUpdate (addon s) <? 1000 then finish tid s
  else
    let s1 := with_addon (set_lastCartCountUpdate now) s in
    park tid AwaitCart (emit (Fetch GetCart) s1).

(** [triggerCartRefresh()]: [dispatchEvent] runs the listeners, this
    controller's among them, before it returns.  [updateCartCount] catches
    whatever it throws, so the [catch] block calling
    [triggerSimpleCartUpdate] is never entered. *)
Definition triggerCartRefresh (tid : nat) (s : System) : System :=
  let s1 := emit (DispatchCartUpdate self_event) s in
  let s2 := on_cart_update self_event s1 in
  updateCartCount tid s2.

(** [handleCartAdd] after [addToCart] has returned. *)
Definition append_done (tid : nat) (s : System) : System :=
  let s1 := with_addon (set_pendingAddons None) s in
  let s2 := setTimeout ClearProcessed 5000 s1 in
  triggerCartRefresh tid s2.

(** [updateCartCount] once the cart is parsed: [toString] throws on a
    missing [item_count] at the first count element, and the [catch] of
    [updateCartCount] absorbs it. *)
Definition show_count (tid : nat) (cart : Json) (s : System) : System :=
  match item_count cart with
  | Some n =>
    let s1 := with_page (λ p,
        {| checkboxes := checkboxes p;
           notifications := notifications p;
           created := created p;
           cartCounts := (λ _, NumberToString n) <$> cartCounts p |}) s in
    finish tid (emit (DispatchCountUpdated (Some n)) s1)
  | None =>
    match cartCounts (page s) with
    | [] => finish tid (emit (DispatchCountUpdated None) s)
    | _ :: _ => finish tid s
    end
  end.

(** A timer callback. *)
Definition fire (a : TimerAction) (s : System) : System :=
  match a with
  | ResumeSettle tid =>
    match tasks s !! tid with
    | Some (AwaitSettle addonsToAdd) => resume_settle tid addonsToAdd s
    | _ => s
    end
  | ClearProcessed => with_addon (set_processedEventIds ∅) s
  | RemoveNotification node => remove_notification node s
  end.

(** A [fetch] promise settles. *)
Definition fetch_settles (tid : nat) (r : FetchResult) (s : System) : option System :=
  match tasks s !! tid with
  | Some AwaitAppend =>
    match r with
    | FetchRejected => Some (fail tid s)
    | Response false => Some (park tid AwaitErrorBody s)
    | Response true => Some (park tid AwaitAppendBody s)
    end
  | Some AwaitCart =>
    match r with
    | FetchRejected => Some (finish tid s)
    | Response false => Some (finish tid s)
    | Response true => Some (park tid AwaitCartBody s)
    end
  | _ => None
  end.

(** A [response.json()] promise settles. *)
Definition body_settles (tid : nat) (r : BodyResult) (s : System) : option System :=
  match tasks s !! tid with
  | Some AwaitErrorBody => Some (fail tid s)
  | Some AwaitAppendBody =>
    match r with
    | BodyRejected => Some (fail tid s)
    | Body _ => Some (append_done tid s)
    end
  | Some AwaitCartBody =>
    match r with
    | BodyRejected => Some (finish tid s)
    | Body cart => Some (show_count tid cart s)
    end
  | _ => None
  end.

(** What the environment can do next. *)
Inductive Input :=
| Submit (targetMatches : bool)
| CartUpdate (event : CartEvent)
| DomChange (boxes : list Checkbox)
| TimerFires (k : nat)
| FetchSettles (tid : nat) (r : FetchResult)
| BodySettles (tid : nat) (r : BodyResult).

Definition set_checkboxes (boxes : list Checkbox) (p : Page) : Page :=
  {| checkboxes := boxes;
     notifications := notifications p;
     created := created p;
     cartCounts := cartCounts p |}.

(** One callback run to its next suspension, at time [t].  Time does not go
    back, and a timer does not fire before it is due; nothing else is assumed
    of the order in which the environment acts. *)
Definition step (t : Z) (i : Input) (s : System) : option System :=
  if t <? clock s then None
  else
    let s := with_clock t s in
    match i with
    | Submit targetMatches => Some (on_submit targetMatches s)
    | CartUpdate event => Some (on_cart_update event s)
    | DomChange boxes => Some (with_page (set_checkboxes boxes) s)
    | TimerFires k =>
      match timers s !! k with
      | Some tm =>
        if due tm <=? t
        then Some (fire (action tm) (with_timers (delete k) s))
        else None
      | None => None
      end
    | FetchSettles tid r => fetch_settles tid r s
    | BodySettles tid r => body_settles tid r s
    end.

Fixpoint run (s : System) (tr : list (Z * Input)) : option System :=
  match tr with
  | [] => Some s
  | (t, i) :: tr' =>
    match step t i s with
    | Some s' => run s' tr'
    | None => None
    end
  end.

(** The page has loaded at time [t0] and [new ProductAddon()] has run. *)
Definition boot (t0 : Z) (boxes : list Checkbox) (counts : list string) : System :=
  {| addon := new_ProductAddon;
     page := {| checkboxes := boxes; notifications := []; created := 0;
                cartCounts := Rendered <$> counts |};
     tasks := ∅;
     spawned := 0;
     timers := [];
     clock := t0;
     effects := [] |}.

Definition reachable (s : System) : Prop :=
  ∃ t0 boxes counts tr, run (boot t0 boxes counts) tr = Some s.

(** ** Sample data *)

Module Sample.

(** A checked checkbox inside a well-formed add-on container. *)
Definition box (v : string) : Checkbox :=
  {| checked := true;
     closest := Some {| dataset := Some {| addonProductId := Some "8001";
                                           addonVariantId := Some v;
                                           addonPrice := Some "9.99" |} |} |}.

Definition unchecked (b : Checkbox) : Checkbox :=
  {| checked := false; closest := closest b |}.

(** A checked checkbox whose container carries none of the attributes. *)
Definition bare_box : Checkbox :=
  {| checked := true;
     closest := Some {| dataset := Some {| addonProductId := None;
                                           addonVariantId := None;
                                           addonPrice := None |} |} |}.

(** A checked checkbox outside any add-on container. *)
Definition orphan_box : Checkbox :=
  {| checked := true; closest := None |}.

Definition entry (v : string) : Addon :=
  {| productId := Some "8001"; variantId := Some v; price := Some "9.99" |}.

Definition event (tag : string) (i : option string) : CartEvent :=
  {| detail := Some {| detailSource := None;
                       eventId := i;
                       data := Some {| source := Some tag;
                                       didError := None;
                                       dataProductId := Some "77" |} |} |}.

(** A successful add from the product form. *)
Definition added (i : option string) : CartEvent := event FORM_TAG i.

Definition cart (n : Z) : Json := {| message := None; item_count := Some n |}.

(** Two checked add-ons around an unchecked one. *)
Definition two_boxes : list Checkbox :=
  [box "V1"; unchecked (box "V0"); box "V2"].

(** Load time, in ms since the epoch. *)
Definition t0 : Z := 1700000000000.

(** The shopper submits with one add-on checked, unchecks it, and submits
    again. *)
Definition submit_twice : list (Z * Input) :=
  [(t0 + 10, Submit true);
   (t0 + 20, DomChange [unchecked (box "V1")]);
   (t0 + 30, Submit true)].

(** An accepted notification follows a submission; a second notification
    arrives while the first is still waiting for the delay. *)
Definition overlapping : list (Z * Input) :=
  [(t0 + 10, Submit true);
   (t0 + 200, CartUpdate (added (Some "e1")));
   (t0 + 250, CartUpdate (added (Some "e2")))].

(** The body of a 422 response of [/cart/add.js]. *)
Definition sold_out : Json :=
  {| message := Some "Cart Error"; item_count := None |}.

(** A submission, its notification, the settle delay, and a non-success
    response to the append. *)
Definition refused : list (Z * Input) :=
  [(t0 + 10, Submit true);
   (t0 + 200, CartUpdate (added (Some "e1")));
   (t0 + 500, TimerFires 0%nat);
   (t0 + 650, FetchSettles 0%nat (Response false))].

(** A submission whose add-on is appended successfully and the cart count
    refreshed, after which the shopper unchecks the add-on. *)
Definition first_add : list (Z * Input) :=
  [(t0 + 10, Submit true);
   (t0 + 200, CartUpdate (added (Some "a")));
   (t0 + 500, TimerFires 0%nat);
   (t0 + 600, FetchSettles 0%nat (Response true));
   (t0 + 610, BodySettles 0%nat (Body (cart 2)));
   (t0 + 700, FetchSettles 0%nat (Response true));
   (t0 + 710, BodySettles 0%nat (Body (cart 2)));
   (t0 + 1000, DomChange [unchecked (box "V1")])].

(** The add-on is checked again, the timer clearing the processed
    identifiers (due at [t0 + 5610]) fires, and a notification carrying
    ["b"] is delivered, followed by the end of its settle delay. *)
Definition same_identifier_later : list (Z * Input) :=
  [(t0 + 3000, DomChange [box "V1"]);
   (t0 + 5610, TimerFires 0%nat);
   (t0 + 6000, CartUpdate (added (Some "b")));
   (t0 + 6300, TimerFires 0%nat)].

(** The state a trace leads to from a freshly loaded page. *)
Definition after (boxes : list Checkbox) (tr : list (Z * Input)) : System :=
  default (boot t0 boxes []) (run (boot t0 boxes []) tr).

Definition resubmitted : System :=
  Eval vm_compute in after [box "V1"] submit_twice.

Definition suspended : System :=
  Eval vm_compute in after [box "V1"] overlapping.

Definition awaiting_error_body : System :=
  Eval vm_compute in after [box "V1"] refused.

Definition submitted : System :=
  Eval vm_compute in after [box "V1"] [(t0 + 10, Submit true)].

Definition first_added : System :=
  Eval vm_compute in after [box "V1"] first_add.

(** [first_added] once a notification carrying ["b"] has been handled. *)
Definition consumed : System :=
  Eval vm_compute in
    default first_added
      (step (t0 + 2000) (CartUpdate (added (Some "b"))) first_added).

Definition appended_again : System :=
  Eval vm_compute in default consumed (run consumed same_identifier_later).

End Sample.


(** ** Predicates of the statements *)

(** The identifier [handleCartAdd] looks up and records:
    [event.detail.eventId], when there is one and it is truthy. *)
Definition event_id (event : CartEvent) : option string :=
  match detail event with
  | Some d => if truthy_str (eventId d) then eventId d else None
  | None => None
  end.

(** The notification passes every check of the listener. *)
Definition accepted (event : CartEvent) (s : System) : bool :=
  isAddToCartEvent event
  && negb (isProcessingAddons (addon s))
  && negb (has_id (processedEventIds (addon s)) (event_id event)).

(** The pending set is absent or non-empty. *)
Definition pending_ok (s : System) : Prop :=
  pendingAddons (addon s) = None
  ∨ ∃ a l, pendingAddons (addon s) = Some (a :: l).

(** The flag is set exactly while one invocation is suspended. *)
Definition flag_guards (s : System) : Prop :=
  if isProcessingAddons (addon s)
  then ∃ tid k, tasks s = {[tid := k]}
  else tasks s = ∅.

(** An invocation waiting for the delay has its timer pending. *)
Definition settle_armed (s : System) : Prop :=
  ∀ tid l, tasks s !! tid = Some (AwaitSettle l) →
    ∃ d, {| due := d; action := ResumeSettle tid |} ∈ timers s.

(** Upper bound on the suspensions an invocation still has ahead. *)
Definition remaining (k : Task) : nat :=
  match k with
  | AwaitSettle _ => 5
  | AwaitAppend => 4
  | AwaitAppendBody => 3
  | AwaitCart => 2
  | AwaitCartBody => 1
  | AwaitErrorBody => 1
  end.

(** [i], at time [t], is the environment resuming invocation [tid]. *)
Definition resumes (t : Z) (s : System) (tid : nat) (i : Input) : Prop :=
  clock s ≤ t ∧
  match tasks s !! tid with
  | Some (AwaitSettle _) =>
    ∃ k d, i = TimerFires k
           ∧ timers s !! k = Some {| due := d; action := ResumeSettle tid |}
           ∧ d ≤ t
  | Some AwaitAppend | Some AwaitCart => ∃ r, i = FetchSettles tid r
  | Some _ => ∃ r, i = BodySettles tid r
  | None => False
  end.

(** The bodies of the append requests among [l], oldest first. *)
Definition appends (l : list Effect) : list (list Item) :=
  omap (λ e, match e with
             | Fetch (PostCartAdd items) => Some items
             | _ => None
             end) l.

(** The append call of invocation [tid] fails at input [i]: the [fetch]
    rejects, the body of a non-success response settles either way, or the
    body of a success response cannot be parsed. *)
Definition append_fails (s : System) (tid : nat) (i : Input) : Prop :=
  match tasks s !! tid with
  | Some AwaitAppend => i = FetchSettles tid FetchRejected
  | Some AwaitErrorBody => ∃ r, i = BodySettles tid r
  | Some AwaitAppendBody => i = BodySettles tid BodyRejected
  | _ => False
  end.

(** The system once [handleCartAdd] has recorded the identifier of
    [event]. *)
Definition record_id (event : CartEvent) (s : System) : System :=
  with_addon (λ c, set_processedEventIds
                     (add_id (event_id event) (processedEventIds c)) c) s.

(** No invocation is waiting for the settle delay. *)
Definition none_settling (s : System) : Prop :=
  ∀ tid l, tasks s !! tid ≠ Some (AwaitSettle l).

(** [i] delivers no cart-update notification. *)
Definition silent (i : Input) : bool :=
  match i with
  | CartUpdate _ => false
  | _ => true
  end.


(** ** Further predicates *)

(** A request body [addToCart] may send: at least one item, each of
    quantity one. *)
Definition well_formed_items (items : list Item) : Prop :=
  items ≠ [] ∧ Forall (λ it, quantity it = 1) items.

(** An invocation waiting for the delay holds at least one add-on. *)
Definition settling_nonempty (s : System) : Prop :=
  ∀ tid, tasks s !! tid ≠ Some (AwaitSettle []).

(** Every invocation suspended so far has made its append request, except
    the one still waiting for the delay. *)
Definition appended_once (s : System) : Prop :=
  (∀ tid l, tasks s !! tid = Some (AwaitSettle l) →
     S (length (appends (effects s))) = spawned s)
  ∧ (none_settling s → length (appends (effects s)) = spawned s).

(** The notification elements in the page are distinct nodes created by
    [showErrorMessage], each with its removal timer pending. *)
Definition notifications_ok (s : System) : Prop :=
  NoDup (notifications (page s))
  ∧ ∀ n, n ∈ notifications (page s) →
      (n < created (page s))%nat
      ∧ ∃ d, {| due := d; action := RemoveNotification n |} ∈ timers s.

(** [i] is a submission or a change of the checkboxes. *)
Definition bystander (i : Input) : bool :=
  match i with
  | Submit _ | DomChange _ => true
  | _ => false
  end.

(** [i] leaves every add-on checkbox unchecked. *)
Definition leaves_unchecked (i : Input) : bool :=
  match i with
  | DomChange boxes => forallb (λ cb, negb (checked cb)) boxes
  | _ => true
  end.


(** Nothing is pending, suspended, scheduled, requested or displayed, and
    no add-on checkbox is checked. *)
Definition untouched (s : System) : Prop :=
  Forall (λ cb, checked cb = false) (checkboxes (page s))
  ∧ pendingAddons (addon s) = None
  ∧ isProcessingAddons (addon s) = false
  ∧ tasks s = ∅ ∧ timers s = [] ∧ effects s = []
  ∧ notifications (page s) = [].

(** [tr] is a sequence of resumptions of invocation [tid], from [s] on. *)
Fixpoint resumptions (s : System) (tid : nat) (tr : list (Z * Input)) : Prop :=
  match tr with
  | [] => True
  | (t, i) :: tr' =>
    resumes t s tid i
    ∧ ∀ s', step t i s = Some s' → resumptions s' tid tr'
  end.

(** ** Further sample states *)

Module Scenario.

(** [Sample.awaiting_error_body] once the error body has settled. *)
Definition error_shown : System :=
  Eval vm_compute in
    default Sample.awaiting_error_body
      (step (Sample.t0 + 700) (BodySettles 0%nat (Body Sample.sold_out))
         Sample.awaiting_error_body).

(** The append of a captured add-on has been answered with success and
    the body of the response is awaited. *)
Definition appended : System :=
  Eval vm_compute in
    Sample.after [Sample.box "V1"]
      [(Sample.t0 + 10, Submit true);
       (Sample.t0 + 200, CartUpdate (Sample.added (Some "a")));
       (Sample.t0 + 500, TimerFires 0%nat);
       (Sample.t0 + 600, FetchSettles 0%nat (Response true))].


(** On a page with two count displays, the append has succeeded and the
    cart has been fetched: its body is awaited. *)
Definition counting : System :=
  Eval vm_compute in
    default (boot Sample.t0 [] [])
      (run (boot Sample.t0 [Sample.box "V1"] ["0"; "0"]%string)
         [(Sample.t0 + 10, Submit true);
          (Sample.t0 + 200, CartUpdate (Sample.added (Some "a")));
          (Sample.t0 + 500, TimerFires 0%nat);
          (Sample.t0 + 600, FetchSettles 0%nat (Response true));
          (Sample.t0 + 610, BodySettles 0%nat (Body (Sample.cart 2)));
          (Sample.t0 + 700, FetchSettles 0%nat (Response true))]).

(** A captured add-on whose notification has been accepted: the invocation
    waits for its settle delay. *)
Definition settling : System :=
  Eval vm_compute in
    Sample.after [Sample.box "V1"]
      [(Sample.t0 + 10, Submit true);
       (Sample.t0 + 200, CartUpdate (Sample.added (Some "a")))].

(** During the delay the shopper checks another add-on and submits again. *)
Definition meanwhile : list (Z * Input) :=
  [(Sample.t0 + 300, DomChange [Sample.unchecked (Sample.box "V1"); Sample.box "V2"]);
   (Sample.t0 + 400, Submit true)].

Definition resubmitted_meanwhile : System :=
  Eval vm_compute in default settling (run settling meanwhile).

(** The primary add failed. *)
Definition failed_add : CartEvent :=
  {| detail := Some {| detailSource := None;
                       eventId := Some "e1";
                       data := Some {| source := Some FORM_TAG;
                                       didError := Some true;
                                       dataProductId := Some "77" |} |} |}.

(** The shopper submits with an add-on checked and the primary add fails;
    the shopper unchecks the add-on and submits again. *)
Definition unchecked_resubmission : list (Z * Input) :=
  [(Sample.t0 + 10, Submit true);
   (Sample.t0 + 200, CartUpdate failed_add);
   (Sample.t0 + 3000, DomChange [Sample.unchecked (Sample.box "V1")]);
   (Sample.t0 + 4000, Submit true)].

(** This time the primary add succeeds, and the settle delay ends. *)
Definition successful_add : list (Z * Input) :=
  [(Sample.t0 + 4200, CartUpdate (Sample.added (Some "e2")));
   (Sample.t0 + 4500, TimerFires 0%nat)].

Definition stale_pending : System :=
  Eval vm_compute in Sample.after [Sample.box "V1"] unchecked_resubmission.

Definition stale_posted : System :=
  Eval vm_compute in default stale_pending (run stale_pending successful_add).

End Scenario.
(** ** Reading the selections *)

Section Selections.

Lemma getCheckedAddons_app (p : Page) (l1 l2 : list Checkbox) :
  getCheckedAddons (set_checkboxes (l1 ++ l2) p)
  = getCheckedAddons (set_checkboxes l1 p) ++ getCheckedAddons (set_checkboxes l2 p).
Proof.
  unfold getCheckedAddons, checked_checkboxes. simpl.
  by rewrite List.filter_app, fmap_app, omap_app.
Qed.

Lemma getCheckedAddons_one (p : Page) (cb : Checkbox) :
  checked cb = true →
  getCheckedAddons (set_checkboxes [cb] p) = option_list (read_addon cb).
Proof.
  intros Hc. unfold getCheckedAddons, checked_checkboxes. simpl.
  rewrite Hc. simpl. by destruct (read_addon cb).
Qed.

Lemma getCheckedAddons_split (p : Page) (l1 l2 : list Checkbox) (cb : Checkbox) :
  checked cb = true →
  getCheckedAddons (set_checkboxes (l1 ++ cb :: l2) p)
  = getCheckedAddons (set_checkboxes l1 p)
    ++ option_list (read_addon cb)
    ++ getCheckedAddons (set_checkboxes l2 p).
Proof.
  intros Hc. change (cb :: l2) with ([cb] ++ l2).
  by rewrite !getCheckedAddons_app, getCheckedAddons_one.
Qed.

End Selections.

(** C5 (as amended).  A checked selector is dropped by [getCheckedAddons]
    exactly when it has no enclosing add-on container, or that container has
    no [dataset]: the selections read are then those of the selectors before
    it followed by those of the selectors after it.  A checked selector whose
    container exists but lacks the data attributes is kept, as an entry whose
    fields are the (absent) attribute values.  The read is a total function:
    nothing is reported in either case. *)
Theorem getCheckedAddons_drops_uncontained
    (p : Page) (l1 l2 : list Checkbox) (cb : Checkbox) :
  checked cb = true →
  ((closest cb = None ∨ closest cb = Some {| dataset := None |}) →
     getCheckedAddons (set_checkboxes (l1 ++ cb :: l2) p)
     = getCheckedAddons (set_checkboxes l1 p)
       ++ getCheckedAddons (set_checkboxes l2 p))
  ∧ (∀ ds, closest cb = Some {| dataset := Some ds |} →
     getCheckedAddons (set_checkboxes (l1 ++ cb :: l2) p)
     = getCheckedAddons (set_checkboxes l1 p)
       ++ {| productId := addonProductId ds;
             variantId := addonVariantId ds;
             price := addonPrice ds |}
       :: getCheckedAddons (set_checkboxes l2 p)).
Proof.
  intros Hc. split.
  - intros Hno. rewrite getCheckedAddons_split by done.
    unfold read_addon. by destruct Hno as [-> | ->].
  - intros ds Hds. rewrite getCheckedAddons_split by done.
    unfold read_addon. by rewrite Hds.
Qed.

Lemma getCheckedAddons_drops_uncontained_witness :
  getCheckedAddons
    (set_checkboxes ([Sample.box "V1"] ++ Sample.orphan_box :: [Sample.box "V2"])
                    (page (boot 0 [] [])))
  = [Sample.entry "V1"; Sample.entry "V2"].
Proof.
  pose proof (getCheckedAddons_drops_uncontained (page (boot 0 [] []))
                [Sample.box "V1"] [Sample.box "V2"] Sample.orphan_box eq_refl) as [H _].
  rewrite H; [reflexivity | left; reflexivity].
Defined.

(** C5, as stated, fails: a checked selector whose container lacks all three
    data attributes is not dropped. *)
Lemma getCheckedAddons_keeps_bare_container :
  checked Sample.bare_box = true
  ∧ closest Sample.bare_box
    = Some {| dataset := Some {| addonProductId := None;
                                 addonVariantId := None;
                                 addonPrice := None |} |}
  ∧ getCheckedAddons (page (boot 0 [Sample.bare_box] []))
    = [ {| productId := None; variantId := None; price := None |} ]
  ∧ getCheckedAddons (page (boot 0 [Sample.bare_box] [])) ≠ [].
Proof. repeat split; discriminate. Qed.

(** ** Capturing the selections on submit *)

(** What the submit listener does.  A submission targeting the cart-add
    endpoint that reads at least one add-on selection stores the sequence
    read as the pending set, in place of whatever was pending; a submission
    that reads none returns early.  No other field of the controller
    changes, and nothing is fetched, dispatched or scheduled. *)
Theorem on_submit_captures (s : System) :
  let read := getCheckedAddons (page s) in
  let s' := on_submit true s in
  (read ≠ [] → pendingAddons (addon s') = Some read)
  ∧ (read = [] → s' = s)
  ∧ isProcessingAddons (addon s') = isProcessingAddons (addon s)
  ∧ processedEventIds (addon s') = processedEventIds (addon s)
  ∧ lastCartCountUpdate (addon s') = lastCartCountUpdate (addon s)
  ∧ page s' = page s ∧ tasks s' = tasks s ∧ timers s' = timers s
  ∧ effects s' = effects s.
Proof.
  simpl. unfold on_submit, with_addon, handleFormSubmit. simpl.
  destruct (getCheckedAddons (page s)) as [|a l] eqn:E; simpl.
  - repeat split; try done. intros _. by destruct s as [[] ?].
  - repeat split; done.
Qed.

Lemma on_submit_captures_witness :
  pendingAddons (addon (on_submit true
    (boot Sample.t0 [Sample.box "V1"; Sample.orphan_box] [])))
  = Some [Sample.entry "V1"]
  ∧ on_submit true (boot Sample.t0 [Sample.orphan_box] [])
    = boot Sample.t0 [Sample.orphan_box] [].
Proof.
  split.
  - apply (on_submit_captures (boot Sample.t0 [Sample.box "V1"; Sample.orphan_box] [])).
    discriminate.
  - apply (on_submit_captures (boot Sample.t0 [Sample.orphan_box] [])).
    reflexivity.
Defined.

(** A selection captured at one submission is still in [pendingAddons]
    after a later submission made with nothing checked. *)
Lemma submit_without_selection_keeps_pending :
  run (boot Sample.t0 [Sample.box "V1"] []) [(Sample.t0 + 10, Submit true)]
  = Some Sample.submitted
  ∧ pendingAddons (addon Sample.submitted) = Some [Sample.entry "V1"]
  ∧ run Sample.submitted
      [(Sample.t0 + 20, DomChange [Sample.unchecked (Sample.box "V1")]);
       (Sample.t0 + 30, Submit true)] = Some Sample.resubmitted
  ∧ getCheckedAddons (page Sample.resubmitted) = []
  ∧ pendingAddons (addon Sample.resubmitted) = Some [Sample.entry "V1"]
  ∧ pendingAddons (addon Sample.resubmitted) ≠ Some [].
Proof. repeat split; first [vm_compute; reflexivity | discriminate]. Qed.

(** C2 (the code at the failing input).  The claim requires that after a
    submission with nothing checked no earlier selection remains pending.
    Here the shopper submits with an add-on checked, the primary add fails,
    the shopper unchecks the add-on and submits again: the early return of
    [handleFormSubmit] skips the store, the earlier selection is still
    pending, and the next successful add posts the unchecked add-on. *)
Theorem stale_capture_is_posted :
  run (boot Sample.t0 [Sample.box "V1"] []) Scenario.unchecked_resubmission
  = Some Scenario.stale_pending
  ∧ getCheckedAddons (page Scenario.stale_pending) = []
  ∧ pendingAddons (addon Scenario.stale_pending) = Some [Sample.entry "V1"]
  ∧ run Scenario.stale_pending Scenario.successful_add
    = Some Scenario.stale_posted
  ∧ checked_checkboxes (page Scenario.stale_posted) = []
  ∧ effects Scenario.stale_posted
    = [Fetch (PostCartAdd [ {| id := Some "V1"; quantity := 1 |} ])].
Proof. repeat split; vm_compute; reflexivity. Qed.

(** ** The checks in front of the handler *)

Section Checks.

Lemma enter_processedEventIds (s : System) :
  processedEventIds (addon (enter s)) = processedEventIds (addon s).
Proof. unfold enter. by destruct (length (resolve_addons s) =? 0)%nat. Qed.

Lemma from_self_not_add (event : CartEvent) :
  from_self event = true → isAddToCartEvent event = false.
Proof.
  unfold from_self, isAddToCartEvent.
  destruct (detail event) as [d|]; [|done].
  destruct (data d) as [dat|]; [|done].
  destruct (source dat) as [src|]; [|done]. simpl.
  intros ->%String.eqb_eq. reflexivity.
Qed.

Lemma handleCartAdd_from_self (event : CartEvent) (s : System) :
  from_self event = true → handleCartAdd event s = s.
Proof. unfold handleCartAdd. by intros ->. Qed.

Lemma on_cart_update_from_self (event : CartEvent) (s : System) :
  from_self event = true → on_cart_update event s = s.
Proof. unfold on_cart_update. by intros ->%from_self_not_add. Qed.

Lemma on_cart_update_processing (event : CartEvent) (s : System) :
  isProcessingAddons (addon s) = true → on_cart_update event s = s.
Proof.
  intros H. unfold on_cart_update, handleCartAdd. rewrite H.
  destruct (isAddToCartEvent event); [|done]. by destruct (from_self event).
Qed.

End Checks.

(** C6.  A notification whose source tag is the controller's own
    (['product-addon']) changes nothing: the listener returns the system as
    it found it (every field of the controller, the page, the suspended
    invocations, the timers, and the requests and events emitted so far), and
    so does [handleCartAdd] when called with it directly. *)
Theorem own_notification_is_noop (event : CartEvent) (d : EventDetail)
    (dat : EventData) (s : System) :
  detail event = Some d →
  data d = Some dat →
  source dat = Some SELF_TAG →
  on_cart_update event s = s
  ∧ handleCartAdd event s = s
  ∧ ∀ t, clock s ≤ t → step t (CartUpdate event) s = Some (with_clock t s).
Proof.
  intros Hd Hdat Hsrc.
  assert (from_self event = true) as Hself
    by (unfold from_self; by rewrite Hd, Hdat, Hsrc).
  split; [by apply on_cart_update_from_self|].
  split; [by apply handleCartAdd_from_self|].
  intros t Ht. unfold step.
  destruct (Z.ltb_spec t (clock s)); [lia|].
  by rewrite on_cart_update_from_self.
Qed.

Lemma own_notification_is_noop_witness :
  let s := on_submit true (boot Sample.t0 [Sample.box "V1"] []) in
  on_cart_update self_event s = s
  ∧ handleCartAdd self_event s = s
  ∧ ∀ t, clock s ≤ t → step t (CartUpdate self_event) s = Some (with_clock t s).
Proof.
  intros s.
  exact (own_notification_is_noop self_event _ _ s eq_refl eq_refl eq_refl).
Defined.

(** C1 (as amended).  The listener applies its checks in this order: the
    three checks on the notification itself ([isAddToCartEvent]: the source
    tag is not the product form's, the add failed, no product identifier)
    come first and reject without touching anything, so the identifier of a
    notification rejected there is not recorded; only then does
    [handleCartAdd] run, which rejects when the processing flag is set, then
    when the identifier is already recorded, and otherwise records the
    identifier (when it is a non-empty string) before resolving the add-ons.
    A notification with the controller's own tag never gets past the first
    of these checks. *)
Theorem cart_update_check_order (event : CartEvent) (d : EventDetail)
    (dat : EventData) (s : System) :
  detail event = Some d →
  data d = Some dat →
  let ids := processedEventIds (addon s) in
  let s' := on_cart_update event s in
  (source dat ≠ Some FORM_TAG → s' = s)
  ∧ (truthy_bool (didError dat) = true → s' = s)
  ∧ (truthy_str (dataProductId dat) = false → s' = s)
  ∧ (source dat = Some FORM_TAG →
     truthy_bool (didError dat) = false →
     truthy_str (dataProductId dat) = true →
     from_self event = false
     ∧ (isProcessingAddons (addon s) = true → s' = s)
     ∧ (isProcessingAddons (addon s) = false →
        (truthy_str (eventId d) = true → has_id ids (eventId d) = true → s' = s)
        ∧ (truthy_str (eventId d) = true → has_id ids (eventId d) = false →
           processedEventIds (addon s') = add_id (eventId d) ids)
        ∧ (truthy_str (eventId d) = false →
           processedEventIds (addon s') = ids))).
Proof.
  intros Hd Hdat ids s'. subst ids s'.
  unfold on_cart_update, isAddToCartEvent. rewrite Hd, Hdat.
  split; [|split; [|split]].
  - intros Hsrc. destruct (source dat) as [src|]; simpl; [|done].
    destruct (String.eqb_spec src FORM_TAG); by simplify_eq.
  - intros ->. by destruct (negb (str_is (source dat) FORM_TAG)).
  - intros ->. destruct (negb (str_is (source dat) FORM_TAG)); [done|].
    by destruct (truthy_bool (didError dat)).
  - intros Hsrc -> ->. rewrite Hsrc. simpl.
    unfold handleCartAdd, from_self. rewrite Hd, Hdat, Hsrc. simpl.
    split; [done|]. split; [by intros ->|]. intros ->.
    split; [by intros -> ->|]. split.
    + intros Ht Hh. rewrite Ht, Hh. simpl. by rewrite enter_processedEventIds.
    + intros Ht. rewrite Ht. simpl. by rewrite enter_processedEventIds.
Qed.

Lemma cart_update_check_order_witness :
  let s := boot Sample.t0 [Sample.box "V1"] [] in
  on_cart_update (Sample.event "cart-items-component" (Some "e1")) s = s
  ∧ processedEventIds (addon (on_cart_update (Sample.added (Some "e1")) s))
    = {["e1"]} ∪ ∅.
Proof.
  intros s. split.
  - pose proof (cart_update_check_order
                  (Sample.event "cart-items-component" (Some "e1")) _ _ s
                  eq_refl eq_refl) as [H _].
    apply H. discriminate.
  - pose proof (cart_update_check_order (Sample.added (Some "e1")) _ _ s
                  eq_refl eq_refl) as (_ & _ & _ & H).
    destruct H as (_ & _ & H); [reflexivity ..|].
    destruct H as (_ & H & _); [reflexivity|].
    apply H; reflexivity.
Defined.

(** C1, as stated, fails: a notification carrying an identifier and rejected
    because its source tag is not the product form's does not have the
    identifier recorded, and the same identifier is accepted afterwards. *)
Lemma rejected_source_leaves_identifier_unrecorded :
  let s := boot Sample.t0 [Sample.box "V1"] [] in
  let foreign := Sample.event "cart-items-component" (Some "e1") in
  from_self foreign = false
  ∧ isProcessingAddons (addon s) = false
  ∧ has_id (processedEventIds (addon s)) (Some "e1") = false
  ∧ isAddToCartEvent foreign = false
  ∧ has_id (processedEventIds (addon (on_cart_update foreign s))) (Some "e1") = false
  ∧ ("e1" ∉ processedEventIds (addon (on_cart_update foreign s)))
  ∧ isProcessingAddons
      (addon (on_cart_update (Sample.added (Some "e1")) (on_cart_update foreign s)))
    = true.
Proof. repeat split; try reflexivity. set_solver. Qed.

(** ** Invariants of the event loop *)

(** Unfold one callback down to the record fields and split its cases. *)
Ltac crush_step :=
  unfold step, fetch_settles, body_settles, fire, on_submit, on_cart_update,
    handleCartAdd, enter, append_done, triggerCartRefresh, updateCartCount,
    show_count, fail, finish, park, resume_settle, showErrorMessage,
    remove_notification, spawn, setTimeout, emit, handleFormSubmit,
    with_addon, with_page, with_tasks, with_timers, with_clock in *;
  simpl in *; repeat case_match; simplify_eq/=.

Section Invariants.


Lemma step_pending_ok (t : Z) (i : Input) (s s' : System) :
  pending_ok s → step t i s = Some s' → pending_ok s'.
Proof.
  unfold pending_ok. intros Hok Hstep. destruct i; crush_step; eauto.
  destruct (getCheckedAddons (page s)); [done | eauto].
Qed.

Lemma singleton_task (m : gmap nat Task) (a b : nat) (x y : Task) :
  m = {[a := x]} → m !! b = Some y → a = b ∧ x = y.
Proof. intros -> H. by apply lookup_singleton_Some in H. Qed.

Lemma step_flag_guards (t : Z) (i : Input) (s s' : System) :
  flag_guards s → step t i s = Some s' → flag_guards s'.
Proof.
  unfold flag_guards. intros Hok Hstep.
  destruct i; crush_step; eauto; try congruence;
    repeat match goal with
    | H : ∃ _, _ |- _ => destruct H
    | H : ?m = {[ _ := _ ]}, H' : ?m !! _ = Some _ |- _ =>
        destruct (singleton_task _ _ _ _ _ H H'); clear H'; subst
    | H : ?m = ∅, H' : ?m !! _ = Some _ |- _ =>
        rewrite H, lookup_empty in H'; discriminate
    | H : tasks _ = _ |- _ => rewrite H
    end;
    rewrite ?insert_singleton_eq, ?delete_singleton_eq, ?insert_empty; eauto; try congruence.
Qed.

Lemma elem_of_delete_other (l : list Timer) (k : nat) (x y : Timer) :
  l !! k = Some y → x ∈ l → x ≠ y → x ∈ delete k l.
Proof.
  intros Hk Hx Hne. rewrite (delete_Permutation l k y Hk) in Hx.
  apply elem_of_cons in Hx as [->|]; done.
Qed.

Lemma step_settle_armed (t : Z) (i : Input) (s s' : System) :
  settle_armed s → step t i s = Some s' → settle_armed s'.
Proof.
  unfold settle_armed. intros Hok Hstep tid0 l0.
  destruct i; crush_step; eauto;
    rewrite ?lookup_insert_Some, ?lookup_delete_Some;
    intros Hl;
    repeat match goal with
    | H : _ ∧ _ |- _ => destruct H
    | H : _ ∨ _ |- _ => destruct H
    end; simplify_eq; eauto;
    try (destruct (Hok _ _ ltac:(eassumption)) as [d Hd]; exists d);
    rewrite ?elem_of_app; eauto.
  1-3: eexists; rewrite elem_of_app, list_elem_of_singleton; by right.
  all: eapply elem_of_delete_other; [eassumption | eassumption |].
  all: destruct t0 as [d' a']; simpl in *; intros [= -> <-]; congruence.
Qed.

Lemma run_preserves (P : System → Prop) :
  (∀ t i s s', P s → step t i s = Some s' → P s') →
  ∀ tr s s', P s → run s tr = Some s' → P s'.
Proof.
  intros Hstep tr. induction tr as [|[t i] tr IH]; simpl; intros s s' HP Hrun.
  - by simplify_eq.
  - destruct (step t i s) as [s1|] eqn:E; [|done]. eauto.
Qed.

Lemma reachable_pending_ok (s : System) : reachable s → pending_ok s.
Proof.
  intros (t0 & boxes & counts & tr & Hrun).
  eapply (run_preserves pending_ok step_pending_ok); [|done]. by left.
Qed.

Lemma reachable_flag_guards (s : System) : reachable s → flag_guards s.
Proof.
  intros (t0 & boxes & counts & tr & Hrun).
  eapply (run_preserves flag_guards step_flag_guards); [|done]. done.
Qed.

Lemma reachable_settle_armed (s : System) : reachable s → settle_armed s.
Proof.
  intros (t0 & boxes & counts & tr & Hrun).
  eapply (run_preserves settle_armed step_settle_armed); [|done].
  intros tid l Hl. simpl in Hl. by rewrite lookup_empty in Hl.
Qed.

Lemma reachable_step (t : Z) (i : Input) (s s' : System) :
  reachable s → step t i s = Some s' → reachable s'.
Proof.
  intros (t0 & boxes & counts & tr & Hrun) Hstep.
  exists t0, boxes, counts, (tr ++ [(t, i)]).
  revert Hrun. generalize (boot t0 boxes counts).
  induction tr as [|[t1 i1] tr IH]; simpl; intros s0 Hrun.
  - simplify_eq. by rewrite Hstep.
  - destruct (step t1 i1 s0); [eauto | done].
Qed.

End Invariants.

(** C10.  The pending set is absent or a non-empty sequence in the freshly
    constructed controller and after every callback, hence in every state the
    controller can reach; the submit listener changes it only to the
    non-empty sequence it has just read, and the successful end of an append
    resets it to absent. *)
Theorem pending_never_empty (s : System) :
  reachable s →
  pending_ok s
  ∧ (∀ t i s', step t i s = Some s' → pending_ok s')
  ∧ (∀ targetMatches,
       pendingAddons (addon (on_submit targetMatches s)) = pendingAddons (addon s)
       ∨ ∃ a l, getCheckedAddons (page s) = a :: l
                ∧ pendingAddons (addon (on_submit targetMatches s)) = Some (a :: l))
  ∧ (∀ tid j, tasks s !! tid = Some AwaitAppendBody →
       ∃ s', body_settles tid (Body j) s = Some s'
             ∧ pendingAddons (addon s') = None).
Proof.
  intros Hs. split; [by apply reachable_pending_ok|].
  split; [intros t i s' Hstep; eapply step_pending_ok, Hstep;
          by apply reachable_pending_ok|].
  split.
  - intros [|]; [|by left]. unfold on_submit, handleFormSubmit. simpl.
    destruct (getCheckedAddons (page s)) as [|a l]; simpl; eauto.
  - intros tid j Hk. unfold body_settles. rewrite Hk. eexists. split; [done|].
    crush_step; done.
Qed.

Lemma pending_never_empty_witness : pending_ok Sample.resubmitted.
Proof.
  refine (proj1 (pending_never_empty Sample.resubmitted _)).
  exists Sample.t0, [Sample.box "V1"], [], Sample.submit_twice.
  vm_compute. reflexivity.
Defined.

(** ** Entering the critical section *)

Section Entering.

Lemma record_id_none (event : CartEvent) (s : System) :
  event_id event = None → record_id event s = s.
Proof.
  unfold record_id, with_addon. intros ->. simpl. by destruct s as [[] ?].
Qed.

Lemma resolve_addons_record_id (event : CartEvent) (s : System) :
  resolve_addons (record_id event s) = resolve_addons s.
Proof. done. Qed.

Lemma on_cart_update_accepted (event : CartEvent) (s : System) :
  accepted event s = true → on_cart_update event s = enter (record_id event s).
Proof.
  unfold accepted. intros Hacc.
  apply andb_prop in Hacc as [Hacc Hid]. apply andb_prop in Hacc as [Hadd Hflag].
  apply negb_true_iff in Hid. apply negb_true_iff in Hflag.
  unfold on_cart_update, handleCartAdd. rewrite Hadd, Hflag.
  destruct (from_self event) eqn:Hself.
  { apply from_self_not_add in Hself. congruence. }
  assert (detail event = None → event_id event = None) as Hnone
    by (unfold event_id; by intros ->).
  destruct (detail event) as [d|] eqn:Hd.
  - unfold event_id in Hid. unfold record_id, event_id. rewrite Hd in *.
    destruct (truthy_str (eventId d)) eqn:Ht; simpl.
    + by rewrite Hid.
    + f_equal. unfold with_addon. simpl. by destruct s as [[] ?].
  - by rewrite record_id_none by auto.
Qed.

Lemma enter_nonempty (s : System) :
  resolve_addons s ≠ [] →
  enter s = spawn (AwaitSettle (resolve_addons s))
              (setTimeout (ResumeSettle (spawned s)) 300
                 (with_addon (set_isProcessingAddons true) s)).
Proof.
  intros Hne. unfold enter. by destruct (resolve_addons s).
Qed.

Lemma enter_empty (s : System) : resolve_addons s = [] → enter s = s.
Proof. intros H. unfold enter. by rewrite H. Qed.

Lemma step_clock (t : Z) (s : System) : clock s ≤ t → (t <? clock s) = false.
Proof. intros. by apply Z.ltb_ge. Qed.

End Entering.

(** C3.  In every state the controller can reach: an accepted notification
    with a non-empty resolved set sets the flag as it suspends at the settle
    delay, before any request is made; the flag is set exactly while an
    invocation is suspended, and at most one is; a notification handled while
    the flag is set changes nothing, so it appends nothing and leaves both the
    flag and the suspended invocation as they were; and the suspended
    invocation can always be resumed, each resumption, whatever the outcome
    of the timer, request or body it waited for, either ends it with the flag
    cleared or leaves it suspended, flag still set, strictly closer to its
    end. *)
Theorem processing_flag_brackets_handling (s : System) :
  reachable s →
  (∀ t event, clock s ≤ t → accepted event s = true → resolve_addons s ≠ [] →
     ∃ s', step t (CartUpdate event) s = Some s'
       ∧ isProcessingAddons (addon s') = true
       ∧ tasks s' = {[spawned s := AwaitSettle (resolve_addons s)]}
       ∧ timers s' = timers s ++ [ {| due := t + 300;
                                      action := ResumeSettle (spawned s) |} ]
       ∧ effects s' = effects s)
  ∧ (isProcessingAddons (addon s) = true ↔ ∃ tid k, tasks s = {[tid := k]})
  ∧ (isProcessingAddons (addon s) = false ↔ tasks s = ∅)
  ∧ (isProcessingAddons (addon s) = true →
     ∀ t event, clock s ≤ t →
       step t (CartUpdate event) s = Some (with_clock t s))
  ∧ (∀ tid k, tasks s !! tid = Some k →
       (∃ t i, resumes t s tid i)
       ∧ ∀ t i, resumes t s tid i →
           ∃ s', step t i s = Some s'
             ∧ ((tasks s' = ∅ ∧ isProcessingAddons (addon s') = false)
                ∨ (∃ k', tasks s' = {[tid := k']}
                         ∧ (remaining k' < remaining k)%nat
                         ∧ isProcessingAddons (addon s') = true))).
Proof.
  intros Hs.
  pose proof (reachable_flag_guards s Hs) as Hflag.
  pose proof (reachable_settle_armed s Hs) as Harmed.
  unfold flag_guards in Hflag.
  split; [|split; [|split; [|split]]].
  - intros t event Ht Hacc Hne. unfold step. rewrite step_clock by done.
    eexists. split; [done|].
    rewrite on_cart_update_accepted
      by (revert Hacc; unfold accepted; by destruct s).
    rewrite enter_nonempty by done. simpl.
    unfold accepted in Hacc.
    destruct (isProcessingAddons (addon s)); [by rewrite andb_false_r in Hacc|].
    rewrite Hflag. by rewrite insert_empty.
  - destruct (isProcessingAddons (addon s)); [by split|].
    split; [done|]. intros (tid & k & Hk). rewrite Hk in Hflag.
    by apply (map_non_empty_singleton tid k) in Hflag.
  - destruct (isProcessingAddons (addon s)); [|done].
    destruct Hflag as (tid & k & Hk). split; [done|]. rewrite Hk.
    intros Hf. by apply (map_non_empty_singleton tid k) in Hf.
  - intros Hf t event Ht. unfold step. rewrite step_clock by done.
    by rewrite on_cart_update_processing.
  - intros tid k Hk.
    destruct (isProcessingAddons (addon s)) eqn:Hf;
      [|by rewrite Hflag, lookup_empty in Hk].
    destruct Hflag as (tid' & k' & Hm).
    destruct (singleton_task _ _ _ _ _ Hm Hk) as [-> ->].
    split.
    + unfold resumes. rewrite Hk.
      destruct k.
      * destruct (Harmed _ _ Hk) as [d [kk Hkk]%list_elem_of_lookup_1].
        exists (Z.max (clock s) d), (TimerFires kk).
        split; [lia|]. exists kk, d. split; [done|]. split; [done|lia].
      * exists (clock s), (FetchSettles tid FetchRejected). split; [lia|eauto].
      * exists (clock s), (BodySettles tid BodyRejected). split; [lia|eauto].
      * exists (clock s), (BodySettles tid BodyRejected). split; [lia|eauto].
      * exists (clock s), (FetchSettles tid FetchRejected). split; [lia|eauto].
      * exists (clock s), (BodySettles tid BodyRejected). split; [lia|eauto].
    + intros t i [Ht Hi]. rewrite Hk in Hi.
      destruct k; repeat match goal with
                         | H : ∃ _, _ |- _ => destruct H
                         | H : _ ∧ _ |- _ => destruct H
                         end; subst i;
        unfold step; rewrite step_clock by done; simpl.
      all: repeat match goal with
           | H : timers _ !! _ = Some _ |- _ => rewrite H; simpl
           | H : ?d ≤ ?t |- context [?d <=? ?t] =>
               rewrite (proj2 (Z.leb_le d t) H)
           end.
      all: unfold fetch_settles, body_settles, fire; simpl; rewrite ?Hk.
      all: repeat match goal with
           | |- context [match ?r with FetchRejected => _ | _ => _ end] =>
               destruct r as [|[|]]
           | |- context [match ?r with BodyRejected => _ | _ => _ end] =>
               destruct r as [|?]
           end.
      all: eexists; (split; [reflexivity|]).
      all: crush_step; rewrite ?Hm, ?insert_singleton_eq, ?delete_singleton_eq.
      all: first [ left; split; [reflexivity | done]
                 | right; eexists; split; [reflexivity | split; [simpl; lia | done]] ].
Qed.

Lemma processing_flag_brackets_handling_witness :
  (isProcessingAddons (addon Sample.suspended) = true
   ↔ ∃ tid k, tasks Sample.suspended = {[tid := k]})
  ∧ ∀ t event, clock Sample.suspended ≤ t →
      step t (CartUpdate event) Sample.suspended
      = Some (with_clock t Sample.suspended).
Proof.
  destruct (processing_flag_brackets_handling Sample.suspended)
    as (_ & H1 & _ & H2 & _).
  { exists Sample.t0, [Sample.box "V1"], [], Sample.overlapping.
    vm_compute. reflexivity. }
  split; [exact H1 | exact (H2 eq_refl)].
Defined.

(** ** The append request *)

Section Append.

Lemma getCheckedAddons_checked (p : Page) :
  getCheckedAddons p = omap read_addon (checked_checkboxes p).
Proof.
  unfold getCheckedAddons. generalize (checked_checkboxes p).
  intros l. induction l as [|cb l IH]; [done|].
  csimpl. rewrite <- IH. by destruct (read_addon cb).
Qed.

Lemma accepted_ext (event : CartEvent) (s s' : System) :
  isProcessingAddons (addon s') = isProcessingAddons (addon s) →
  processedEventIds (addon s') = processedEventIds (addon s) →
  accepted event s' = accepted event s.
Proof. unfold accepted. by intros -> ->. Qed.

(** An accepted notification with a non-empty resolved set, followed by its
    timer: the one request made is the append of the resolved add-ons. *)
Lemma accepted_then_settled (s : System) (t2 t3 : Z) (event : CartEvent) :
  clock s ≤ t2 → t2 + 300 ≤ t3 →
  accepted event s = true →
  resolve_addons s ≠ [] →
  ∃ s2 s3,
    step t2 (CartUpdate event) s = Some s2
    ∧ tasks s2 !! spawned s = Some (AwaitSettle (resolve_addons s))
    ∧ step t3 (TimerFires (length (timers s))) s2 = Some s3
    ∧ effects s3
      = effects s ++ [Fetch (PostCartAdd (addon_item <$> resolve_addons s))].
Proof.
  intros Ht2 Ht3 Hacc Hne. unfold step at 1. rewrite step_clock by done.
  rewrite on_cart_update_accepted by done.
  rewrite enter_nonempty by done.
  do 2 eexists. split; [reflexivity|]. split; [apply lookup_insert_eq|].
  unfold step. rewrite step_clock by (simpl; lia). simpl.
  rewrite lookup_app_r, Nat.sub_diag by done. simpl.
  rewrite (proj2 (Z.leb_le _ _) Ht3). simpl.
  rewrite lookup_insert_eq. split; reflexivity.
Qed.

End Append.

(** C4.  A submission made with exactly two add-on selectors checked, whose
    containers give the variant identifiers [V1] and [V2] in document order,
    followed by an accepted notification and the end of the settle delay:
    the handling makes exactly one request, the append whose items are
    [{id: V1, quantity: 1}] and [{id: V2, quantity: 1}] in that order. *)
Theorem two_selections_append_both (s : System) (t1 t2 t3 : Z)
    (event : CartEvent) (cb1 cb2 : Checkbox) (a1 a2 : Addon) (V1 V2 : string) :
  clock s ≤ t1 → t1 ≤ t2 → t2 + 300 ≤ t3 →
  checked_checkboxes (page s) = [cb1; cb2] →
  read_addon cb1 = Some a1 → variantId a1 = Some V1 →
  read_addon cb2 = Some a2 → variantId a2 = Some V2 →
  accepted event s = true →
  ∃ s1 s2 s3,
    step t1 (Submit true) s = Some s1
    ∧ pendingAddons (addon s1) = Some [a1; a2]
    ∧ step t2 (CartUpdate event) s1 = Some s2
    ∧ step t3 (TimerFires (length (timers s))) s2 = Some s3
    ∧ effects s3
      = effects s ++ [Fetch (PostCartAdd [ {| id := Some V1; quantity := 1 |};
                                           {| id := Some V2; quantity := 1 |} ])].
Proof.
  intros Ht1 Ht2 Ht3 Hboxes Hr1 Hv1 Hr2 Hv2 Hacc.
  assert (getCheckedAddons (page s) = [a1; a2]) as Hread.
  { rewrite getCheckedAddons_checked, Hboxes. simpl. by rewrite Hr1, Hr2. }
  set (s1 := on_submit true (with_clock t1 s)).
  assert (step t1 (Submit true) s = Some s1) as Hs1
    by (unfold step; by rewrite step_clock).
  assert (pendingAddons (addon s1) = Some [a1; a2]) as Hp.
  { subst s1. unfold on_submit, handleFormSubmit. simpl. by rewrite Hread. }
  assert (resolve_addons s1 = [a1; a2]) as Hres
    by (unfold resolve_addons; by rewrite Hp).
  destruct (accepted_then_settled s1 t2 t3 event) as (s2 & s3 & H2 & _ & H3 & He);
    [done | done | | by rewrite Hres |].
  { rewrite <- Hacc. apply accepted_ext; subst s1; unfold on_submit, handleFormSubmit;
      simpl; by destruct (length (getCheckedAddons (page s)) =? 0)%nat. }
  exists s1, s2, s3. split; [done|]. split; [done|]. split; [done|].
  assert (timers s1 = timers s ∧ effects s1 = effects s) as [Htm Hef]
    by (subst s1; unfold on_submit; done).
  rewrite Htm in H3. split; [done|].
  rewrite He, Hef, Hres. unfold addon_item. simpl. by rewrite Hv1, Hv2.
Qed.

Lemma two_selections_append_both_witness :
  ∃ s1 s2 s3,
    step (Sample.t0 + 10) (Submit true) (boot Sample.t0 Sample.two_boxes [])
    = Some s1
    ∧ pendingAddons (addon s1) = Some [Sample.entry "V1"; Sample.entry "V2"]
    ∧ step (Sample.t0 + 200) (CartUpdate (Sample.added (Some "e1"))) s1 = Some s2
    ∧ step (Sample.t0 + 500) (TimerFires 0%nat) s2 = Some s3
    ∧ effects s3
      = [Fetch (PostCartAdd [ {| id := Some "V1"; quantity := 1 |};
                              {| id := Some "V2"; quantity := 1 |} ])].
Proof.
  apply (two_selections_append_both (boot Sample.t0 Sample.two_boxes [])
           (Sample.t0 + 10) (Sample.t0 + 200) (Sample.t0 + 500)
           (Sample.added (Some "e1"))
           (Sample.box "V1") (Sample.box "V2") _ _ "V1" "V2");
    first [reflexivity | vm_compute; discriminate].
Defined.

(** ** Failure of the append *)

Section Failure.

Lemma append_fails_step (s : System) (tid : nat) (i : Input) (t : Z) :
  append_fails s tid i → clock s ≤ t →
  step t i s = Some (fail tid (with_clock t s)).
Proof.
  unfold append_fails. intros Hi Ht. unfold step. rewrite step_clock by done.
  destruct (tasks s !! tid) as [[]|] eqn:Hk; try done.
  - subst i. simpl. unfold fetch_settles. simpl. by rewrite Hk.
  - destruct Hi as [r ->]. simpl. unfold body_settles. simpl. by rewrite Hk.
  - subst i. simpl. unfold body_settles. simpl. by rewrite Hk.
Qed.

Lemma silent_step_appends (t : Z) (i : Input) (s s' : System) :
  silent i = true → none_settling s → step t i s = Some s' →
  none_settling s' ∧ appends (effects s') = appends (effects s).
Proof.
  unfold none_settling, appends. intros Hi Hnone Hstep.
  destruct i; try done; crush_step;
    rewrite ?omap_app, ?app_nil_r; simpl; rewrite ?app_nil_r;
    try (by destruct (Hnone _ _ ltac:(eassumption)));
    (split; [|done]); intros tid0 l0;
    rewrite ?lookup_insert_Some, ?lookup_delete_Some;
    try (by apply Hnone);
    intros Hx; decompose [and or] Hx; try discriminate;
    eapply Hnone; eassumption.
Qed.

Lemma silent_run_appends (tr : list (Z * Input)) (s s' : System) :
  forallb (λ ti, silent ti.2) tr = true → none_settling s →
  run s tr = Some s' → appends (effects s') = appends (effects s).
Proof.
  revert s. induction tr as [|[t i] tr IH]; simpl; intros s Hq Hnone Hrun.
  - by simplify_eq.
  - apply andb_prop in Hq as [Hi Hq].
    destruct (step t i s) as [s1|] eqn:Hstep; [|done].
    destruct (silent_step_appends t i s s1 Hi Hnone Hstep) as [Hnone1 <-].
    by apply IH.
Qed.

Lemma step_inserts_notification (t : Z) (i : Input) (s s' : System) :
  step t i s = Some s' →
  (∃ tid, append_fails s tid i)
  ∨ (length (notifications (page s')) ≤ length (notifications (page s)))%nat.
Proof.
  intros Hstep. unfold append_fails.
  destruct i; crush_step;
    first [ right; simpl; lia
          | right; apply List.filter_length_le
          | left; eexists;
            match goal with H : tasks _ !! _ = Some _ |- _ => rewrite H end;
            eauto ].
Qed.

End Failure.

Lemma not_elem_of_removed (node : nat) (l : list nat) :
  node ∉ List.filter (λ n, negb (Nat.eqb n node)) l.
Proof.
  rewrite list_elem_of_In, List.filter_In, Nat.eqb_refl. by intros [_ ?].
Qed.

(** C7.  When the append call of a suspended invocation fails (its [fetch]
    rejects, or the body of a non-success response settles, or the body of a
    success response cannot be parsed), that step inserts exactly one
    notification element, a new one, schedules its removal 5000 ms later,
    makes no request and ends the invocation.  The removal timer cannot fire
    before it is due and, once fired, the element is no longer in the page.
    No append request follows until another notification is delivered, and
    no step other than such a failure inserts a notification.  A non-success
    response is such a failure whichever way its body settles. *)
Theorem append_failure_shows_one_notification
    (s : System) (tid : nat) (i : Input) (t : Z) :
  reachable s → append_fails s tid i → clock s ≤ t →
  let node := created (page s) in
  let removal := {| due := t + 5000; action := RemoveNotification node |} in
  ∃ s', step t i s = Some s'
    ∧ notifications (page s') = notifications (page s) ++ [node]
    ∧ timers s' = timers s ++ [removal]
    ∧ effects s' = effects s
    ∧ tasks s' = ∅
    ∧ (∀ s2 k t2, timers s2 !! k = Some removal → clock s2 ≤ t2 →
         (t2 < t + 5000 → step t2 (TimerFires k) s2 = None)
         ∧ (t + 5000 ≤ t2 →
            ∃ s3, step t2 (TimerFires k) s2 = Some s3
                  ∧ (node ∉ notifications (page s3))
                  ∧ effects s3 = effects s2))
    ∧ (∀ tr s2, forallb (λ ti, silent ti.2) tr = true → run s' tr = Some s2 →
         appends (effects s2) = appends (effects s'))
    ∧ (∀ t1 i1 s1 s2, step t1 i1 s1 = Some s2 →
         (∃ tid1, append_fails s1 tid1 i1)
         ∨ (length (notifications (page s2)) ≤ length (notifications (page s1)))%nat)
    ∧ (∀ t1 tid1 s1, tasks s1 !! tid1 = Some AwaitAppend → clock s1 ≤ t1 →
         ∃ s2, step t1 (FetchSettles tid1 (Response false)) s1 = Some s2
               ∧ page s2 = page s1 ∧ effects s2 = effects s1
               ∧ ∀ r, append_fails s2 tid1 (BodySettles tid1 r)).
Proof.
  intros Hs Hfail Ht node removal.
  pose proof (reachable_flag_guards s Hs) as Hflag.
  rewrite (append_fails_step s tid i t Hfail Ht).
  assert (∃ k, tasks s !! tid = Some k) as [k0 Hk].
  { unfold append_fails in Hfail. destruct (tasks s !! tid); [eauto | done]. }
  assert (tasks (fail tid (with_clock t s)) = ∅) as Hempty.
  { unfold flag_guards in Hflag. simpl.
    destruct (isProcessingAddons (addon s));
      [|by rewrite Hflag, lookup_empty in Hk].
    destruct Hflag as (tid' & k' & Hm).
    destruct (singleton_task _ _ _ _ _ Hm Hk) as [-> ->].
    rewrite Hm. apply delete_singleton_eq. }
  eexists. split; [reflexivity|]. split; [reflexivity|].
  split; [reflexivity|]. split; [reflexivity|]. split; [exact Hempty|].
  split; [|split; [|split]].
  - intros s2 k t2 Hk2 Ht2. unfold step. rewrite step_clock by done. simpl.
    rewrite Hk2. simpl. split.
    + intros Hlt. by rewrite (proj2 (Z.leb_gt _ _) Hlt).
    + intros Hle. rewrite (proj2 (Z.leb_le _ _) Hle).
      eexists. split; [reflexivity|]. split; [|reflexivity].
      simpl. apply not_elem_of_removed.
  - intros tr s2 Hq Hrun. eapply silent_run_appends; [exact Hq | | exact Hrun].
    intros tid0 l0. by rewrite Hempty, lookup_empty.
  - intros t1 i1 s1 s2. apply step_inserts_notification.
  - intros t1 tid1 s1 Hk1 Ht1. unfold step. rewrite step_clock by done.
    simpl. unfold fetch_settles. simpl. rewrite Hk1.
    eexists. split; [reflexivity|]. split; [reflexivity|].
    split; [reflexivity|]. intros r. unfold append_fails. simpl.
    rewrite lookup_insert_eq. eauto.
Qed.

Lemma append_failure_shows_one_notification_witness :
  ∃ s', step (Sample.t0 + 700) (BodySettles 0%nat (Body Sample.sold_out))
          Sample.awaiting_error_body = Some s'
    ∧ notifications (page s') = [0%nat]
    ∧ timers s' = [ {| due := Sample.t0 + 5700; action := RemoveNotification 0 |} ]
    ∧ effects s' = effects Sample.awaiting_error_body
    ∧ tasks s' = ∅.
Proof.
  destruct (append_failure_shows_one_notification Sample.awaiting_error_body
              0%nat (BodySettles 0%nat (Body Sample.sold_out)) (Sample.t0 + 700))
    as (s' & Hstep & Hn & Htm & Hef & Hk & _).
  - exists Sample.t0, [Sample.box "V1"], [], Sample.refused.
    vm_compute. reflexivity.
  - vm_compute. eauto.
  - vm_compute. discriminate.
  - exists s'. split; [exact Hstep|]. split; [exact Hn|].
    split; [exact Htm|]. split; [exact Hef | exact Hk].
Defined.

(** C8.  The step at which the append fails leaves the pending set as it
    was and clears the flag; a non-success response does not touch it either
    while its body is awaited; the only step that takes the pending set from
    present to absent is the successful end of an append.  A set still
    pending after the failure is the one the next accepted notification
    resolves, and the append then requested carries its items. *)
Theorem failed_append_keeps_pending (s : System) (tid : nat) (i : Input) (t : Z) :
  reachable s → append_fails s tid i → clock s ≤ t →
  ∃ s', step t i s = Some s'
    ∧ pendingAddons (addon s') = pendingAddons (addon s)
    ∧ isProcessingAddons (addon s') = false
    ∧ (∀ l t2 t3 event,
         pendingAddons (addon s) = Some l → t ≤ t2 → t2 + 300 ≤ t3 →
         accepted event s' = true →
         ∃ s2 s3,
           step t2 (CartUpdate event) s' = Some s2
           ∧ tasks s2 !! spawned s' = Some (AwaitSettle l)
           ∧ step t3 (TimerFires (length (timers s'))) s2 = Some s3
           ∧ effects s3 = effects s' ++ [Fetch (PostCartAdd (addon_item <$> l))])
    ∧ (∀ t1 tid1 s1 s2, tasks s1 !! tid1 = Some AwaitAppend →
         step t1 (FetchSettles tid1 (Response false)) s1 = Some s2 →
         pendingAddons (addon s2) = pendingAddons (addon s1))
    ∧ (∀ t1 i1 s1 s2, step t1 i1 s1 = Some s2 →
         pendingAddons (addon s1) ≠ None → pendingAddons (addon s2) = None →
         ∃ tid1 j, i1 = BodySettles tid1 (Body j)
                   ∧ tasks s1 !! tid1 = Some AwaitAppendBody).
Proof.
  intros Hs Hfail Ht.
  pose proof (reachable_pending_ok s Hs) as Hok.
  rewrite (append_fails_step s tid i t Hfail Ht).
  eexists. split; [reflexivity|]. split; [reflexivity|]. split; [reflexivity|].
  split; [|split].
  - intros l t2 t3 event Hl Ht2 Ht3 Hacc.
    set (s' := fail tid (with_clock t s)) in *.
    assert (resolve_addons s' = l) as Hres
      by (unfold resolve_addons; subst s'; simpl; by rewrite Hl).
    destruct (accepted_then_settled s' t2 t3 event) as (s2 & s3 & H2 & Hk & H3 & He);
      [done | done | done | | ].
    { rewrite Hres. intros ->. destruct Hok as [Hn | (a & l' & Hn)]; congruence. }
    rewrite Hres in Hk, He. eauto 10.
  - intros t1 tid1 s1 s2 Hk Hstep. crush_step; done.
  - intros t1 i1 s1 s2 Hstep Hsome Hnone.
    destruct i1; crush_step; try done; eauto.
Qed.

Lemma failed_append_keeps_pending_witness :
  ∃ s', step (Sample.t0 + 700) (BodySettles 0%nat (Body Sample.sold_out))
          Sample.awaiting_error_body = Some s'
    ∧ pendingAddons (addon s') = Some [Sample.entry "V1"]
    ∧ isProcessingAddons (addon s') = false.
Proof.
  destruct (failed_append_keeps_pending Sample.awaiting_error_body
              0%nat (BodySettles 0%nat (Body Sample.sold_out)) (Sample.t0 + 700))
    as (s' & Hstep & Hp & Hf & _).
  - exists Sample.t0, [Sample.box "V1"], [], Sample.refused.
    vm_compute. reflexivity.
  - vm_compute. eauto.
  - vm_compute. discriminate.
  - exists s'. split; [exact Hstep|]. split; [exact Hp | exact Hf].
Defined.

(** ** Identifiers *)

Section Identifiers.

Lemma event_id_Some (event : CartEvent) (eid : string) :
  event_id event = Some eid →
  ∃ d, detail event = Some d ∧ eventId d = Some eid
       ∧ truthy_str (eventId d) = true.
Proof.
  unfold event_id. destruct (detail event) as [d|]; [|done].
  destruct (truthy_str (eventId d)) eqn:Ht; [|done]. eauto.
Qed.

Lemma on_cart_update_recorded (event : CartEvent) (eid : string) (s : System) :
  eid ∈ processedEventIds (addon s) → event_id event = Some eid →
  on_cart_update event s = s.
Proof.
  intros Hin (d & Hd & Hid & Ht)%event_id_Some.
  unfold on_cart_update, handleCartAdd.
  destruct (isAddToCartEvent event); [|done].
  destruct (from_self event); [done|].
  destruct (isProcessingAddons (addon s)); [done|].
  rewrite Hd, Ht, Hid. simpl. by rewrite bool_decide_eq_true_2.
Qed.

Lemma step_keeps_identifier (t : Z) (i : Input) (s s' : System) (eid : string) :
  eid ∈ processedEventIds (addon s) → step t i s = Some s' →
  eid ∈ processedEventIds (addon s')
  ∨ ∃ k d, i = TimerFires k
           ∧ timers s !! k = Some {| due := d; action := ClearProcessed |}.
Proof.
  intros Hin Hstep.
  destruct i; crush_step; eauto;
    try (left; unfold add_id; case_match; set_solver).
  right. destruct t0 as [d a]. simpl in *. subst a. eauto.
Qed.

End Identifiers.

(** C9 (as amended).  An accepted notification carrying a non-empty
    identifier records it before the add-on set is resolved: when the
    resolved set is empty the identifier is recorded all the same, and
    nothing else happens (no invocation is suspended, no timer set, no
    request made).  As long as the identifier stays recorded, a notification
    carrying it changes nothing, whatever is checked by then; and it stays
    recorded across every step except the firing of the timer that clears
    the processed identifiers. *)
Theorem identifier_consumed_before_resolution
    (s : System) (event : CartEvent) (eid : string) :
  accepted event s = true → event_id event = Some eid → resolve_addons s = [] →
  let s1 := on_cart_update event s in
  processedEventIds (addon s1) = {[eid]} ∪ processedEventIds (addon s)
  ∧ isProcessingAddons (addon s1) = false
  ∧ tasks s1 = tasks s ∧ timers s1 = timers s ∧ effects s1 = effects s
  ∧ (∀ s2 event2,
       eid ∈ processedEventIds (addon s2) → event_id event2 = Some eid →
       on_cart_update event2 s2 = s2)
  ∧ (∀ t i s2 s3,
       eid ∈ processedEventIds (addon s2) → step t i s2 = Some s3 →
       eid ∈ processedEventIds (addon s3)
       ∨ ∃ k d, i = TimerFires k
                ∧ timers s2 !! k = Some {| due := d; action := ClearProcessed |}).
Proof.
  intros Hacc Hid Hres. simpl.
  rewrite on_cart_update_accepted by done.
  rewrite enter_empty by (by rewrite resolve_addons_record_id).
  unfold record_id. simpl. rewrite Hid. simpl.
  split; [done|]. split.
  { unfold accepted in Hacc. destruct (isProcessingAddons (addon s)); [|done].
    by rewrite andb_false_r in Hacc. }
  do 3 (split; [done|]). split.
  - intros s2 event2. apply on_cart_update_recorded.
  - intros t i s2 s3. apply step_keeps_identifier.
Qed.

Lemma identifier_consumed_before_resolution_witness :
  let s := boot Sample.t0 [Sample.unchecked (Sample.box "V1")] [] in
  processedEventIds (addon (on_cart_update (Sample.added (Some "b")) s))
  = {["b"]} ∪ processedEventIds (addon s)
  ∧ ∀ s2, "b" ∈ processedEventIds (addon s2) →
      on_cart_update (Sample.added (Some "b")) s2 = s2.
Proof.
  intros s.
  destruct (identifier_consumed_before_resolution s (Sample.added (Some "b")) "b")
    as (Hids & _ & _ & _ & _ & Hlater & _); [reflexivity ..|].
  split; [exact Hids|].
  intros s2 Hin. apply Hlater; [exact Hin | reflexivity].
Defined.

(** C9, as stated, fails.  The identifier ["b"] is consumed by a
    notification whose resolved set is empty; the timer set by an earlier
    successful append then clears the processed identifiers, and a later
    notification carrying ["b"], delivered with an add-on checked, performs
    an append. *)
Lemma pruned_identifier_appends_again :
  run (boot Sample.t0 [Sample.box "V1"] []) Sample.first_add
  = Some Sample.first_added
  ∧ accepted (Sample.added (Some "b")) Sample.first_added = true
  ∧ resolve_addons Sample.first_added = []
  ∧ step (Sample.t0 + 2000) (CartUpdate (Sample.added (Some "b")))
      Sample.first_added = Some Sample.consumed
  ∧ has_id (processedEventIds (addon Sample.consumed)) (Some "b") = true
  ∧ appends (effects Sample.consumed) = appends (effects Sample.first_added)
  ∧ run Sample.consumed Sample.same_identifier_later = Some Sample.appended_again
  ∧ appends (effects Sample.appended_again)
    = appends (effects Sample.consumed)
      ++ [[ {| id := Some "V1"; quantity := 1 |} ]].
Proof. repeat split; vm_compute; reflexivity. Qed.

(** ** Notifications the listener does not accept *)

Section Unaccepted.

Lemma isAddToCartEvent_detail (event : CartEvent) :
  isAddToCartEvent event = true → ∃ d, detail event = Some d.
Proof.
  unfold isAddToCartEvent. destruct (detail event) as [d|]; [eauto | done].
Qed.

Lemma has_event_id (event : CartEvent) (d : EventDetail) (ids : gset string) :
  detail event = Some d →
  has_id ids (event_id event) = truthy_str (eventId d) && has_id ids (eventId d).
Proof.
  intros Hd. unfold event_id. rewrite Hd.
  by destruct (truthy_str (eventId d)).
Qed.

Lemma on_cart_update_unaccepted (event : CartEvent) (s : System) :
  accepted event s = false → on_cart_update event s = s.
Proof.
  unfold accepted, on_cart_update, handleCartAdd. intros Hacc.
  destruct (isAddToCartEvent event) eqn:Hadd; [|done].
  destruct (from_self event); [done|].
  destruct (isProcessingAddons (addon s)); [done|].
  destruct (isAddToCartEvent_detail event Hadd) as [d Hd].
  simpl in Hacc. apply negb_false_iff in Hacc.
  rewrite (has_event_id event d _ Hd) in Hacc. by rewrite Hd, Hacc.
Qed.

Lemma accepted_after_enter (event : CartEvent) (s : System) :
  resolve_addons s ≠ [] → accepted event (enter s) = false.
Proof.
  intros Hne. rewrite enter_nonempty by done. unfold accepted. simpl.
  by rewrite andb_false_r.
Qed.

Lemma accepted_after_record (event : CartEvent) (eid : string) (s : System) :
  event_id event = Some eid → accepted event (record_id event s) = false.
Proof.
  intros Hid. unfold accepted, record_id. simpl. rewrite Hid. simpl.
  rewrite bool_decide_eq_true_2 by set_solver. by rewrite andb_false_r.
Qed.

End Unaccepted.

(** X1.  The listener acts on accepted notifications only.  A notification
    that is not accepted (no [detail] or no [detail.data], a source other
    than the product form, an error flag, no product identifier, the flag
    already set, or an identifier already recorded) leaves the whole system
    as it was; an accepted one has its identifier recorded and the add-ons
    resolved, and nothing else. *)
Theorem on_cart_update_acts_when_accepted (event : CartEvent) (s : System) :
  on_cart_update event s
  = if accepted event s then enter (record_id event s) else s.
Proof.
  destruct (accepted event s) eqn:Hacc.
  - by apply on_cart_update_accepted.
  - by apply on_cart_update_unaccepted.
Qed.

(** X2.  Delivering a notification a second time, right after the first,
    changes nothing more: whatever the notification and the state, the
    listener is idempotent. *)
Theorem on_cart_update_idempotent (event : CartEvent) (s : System) :
  on_cart_update event (on_cart_update event s) = on_cart_update event s.
Proof.
  destruct (accepted event s) eqn:Hacc;
    [|by rewrite !(on_cart_update_unaccepted event s Hacc)].
  rewrite (on_cart_update_accepted event s Hacc).
  destruct (decide (resolve_addons s = [])) as [Hres|Hres].
  - rewrite enter_empty by done.
    destruct (event_id event) as [eid|] eqn:Hid.
    + apply on_cart_update_unaccepted. by eapply accepted_after_record.
    + rewrite record_id_none by done.
      rewrite (on_cart_update_accepted event s Hacc).
      rewrite record_id_none by done. by apply enter_empty.
  - apply on_cart_update_unaccepted. by apply accepted_after_enter.
Qed.

(** ** More on reading the selections *)

Lemma omap_length_le {A B} (f : A → option B) (l : list A) :
  (length (omap f l) ≤ length l)%nat.
Proof.
  induction l as [|x l IH]; [done|]. csimpl. destruct (f x); simpl; lia.
Qed.

Lemma getCheckedAddons_unchecked (p : Page) :
  Forall (λ cb, checked cb = false) (checkboxes p) → getCheckedAddons p = [].
Proof.
  rewrite getCheckedAddons_checked. unfold checked_checkboxes.
  intros Hall. induction Hall as [|cb l Hcb _ IH]; [done|].
  simpl. by rewrite Hcb.
Qed.

Lemma getCheckedAddons_skip (p : Page) (cb : Checkbox) :
  checked cb = false → getCheckedAddons (set_checkboxes [cb] p) = [].
Proof.
  intros Hc. unfold getCheckedAddons, checked_checkboxes. simpl. by rewrite Hc.
Qed.

(** X3.  The selections read are exactly, in document order, one entry for
    each checked checkbox that sits in an add-on container with a
    [dataset], read from that container's attributes: every checkbox
    contributes at its place that entry, or nothing when it is unchecked or
    has no such container, and an empty page gives the empty sequence.
    Hence an entry is read if and only if some checked checkbox yields it,
    there are no more entries than checked checkboxes, and exactly as many
    when each of them has its container. *)
Theorem getCheckedAddons_reads_checked (p : Page) :
  getCheckedAddons (set_checkboxes [] p) = []
  ∧ (∀ l1 cb l2,
       getCheckedAddons (set_checkboxes (l1 ++ cb :: l2) p)
       = getCheckedAddons (set_checkboxes l1 p)
         ++ (if checked cb then option_list (read_addon cb) else [])
         ++ getCheckedAddons (set_checkboxes l2 p))
  ∧ (∀ a, a ∈ getCheckedAddons p
          ↔ ∃ cb, cb ∈ checkboxes p ∧ checked cb = true ∧ read_addon cb = Some a)
  ∧ (length (getCheckedAddons p) ≤ length (checked_checkboxes p))%nat
  ∧ (Forall (λ cb, is_Some (read_addon cb)) (checked_checkboxes p) →
     length (getCheckedAddons p) = length (checked_checkboxes p))
  ∧ (Forall (λ cb, checked cb = false) (checkboxes p) → getCheckedAddons p = []).
Proof.
  split; [done|]. split.
  { intros l1 cb l2. destruct (checked cb) eqn:Hc.
    - by apply getCheckedAddons_split.
    - change (cb :: l2) with ([cb] ++ l2).
      by rewrite !getCheckedAddons_app, getCheckedAddons_skip. }
  rewrite getCheckedAddons_checked. unfold checked_checkboxes.
  split; [|split; [|split]].
  - intros a. rewrite list_elem_of_omap. split.
    + intros (cb & Hin & Hr). exists cb.
      rewrite list_elem_of_In, List.filter_In, <- list_elem_of_In in Hin.
      destruct Hin as [Hin Hc]. done.
    + intros (cb & Hin & Hc & Hr). exists cb. split; [|done].
      rewrite list_elem_of_In, List.filter_In, <- list_elem_of_In. done.
  - apply omap_length_le.
  - generalize (List.filter checked (checkboxes p)). intros l Hall.
    induction Hall as [|cb l [a Ha] _ IH]; [done|].
    csimpl. rewrite Ha. simpl. by rewrite IH.
  - intros Hall. apply getCheckedAddons_unchecked in Hall.
    by rewrite getCheckedAddons_checked in Hall.
Qed.

Lemma getCheckedAddons_reads_checked_witness :
  let p := page (boot Sample.t0 [] []) in
  getCheckedAddons
    (set_checkboxes
       ([Sample.box "V1"; Sample.orphan_box; Sample.unchecked (Sample.box "V0")]
          ++ Sample.box "V2" :: [Sample.bare_box]) p)
  = [Sample.entry "V1"; Sample.entry "V2";
     {| productId := None; variantId := None; price := None |}]
  ∧ length (getCheckedAddons (page (boot Sample.t0 Sample.two_boxes [])))
    = length (checked_checkboxes (page (boot Sample.t0 Sample.two_boxes []))).
Proof.
  intros p. split.
  - destruct (getCheckedAddons_reads_checked p) as (_ & Hsplit & _).
    rewrite Hsplit. reflexivity.
  - destruct (getCheckedAddons_reads_checked
                (page (boot Sample.t0 Sample.two_boxes [])))
      as (_ & _ & _ & _ & Hlen & _).
    apply Hlen. repeat constructor; by eexists.
Defined.

(** ** What the controller requests *)

Section Requests.

Lemma addon_items_well_formed (l : list Addon) :
  l ≠ [] → well_formed_items (addon_item <$> l).
Proof.
  intros Hne. split.
  - by destruct l.
  - apply Forall_fmap, Forall_forall. done.
Qed.

Lemma appends_snoc (l : list Effect) (e : Effect) :
  appends (l ++ [e])
  = appends l ++ match e with
                 | Fetch (PostCartAdd items) => [items]
                 | _ => []
                 end.
Proof.
  unfold appends. rewrite omap_app. f_equal. by destruct e as [[]| |].
Qed.

Lemma step_settling_nonempty (t : Z) (i : Input) (s s' : System) :
  settling_nonempty s → step t i s = Some s' → settling_nonempty s'.
Proof.
  unfold settling_nonempty. intros Hok Hstep tid0.
  destruct i; crush_step; eauto;
    rewrite ?lookup_insert_Some, ?lookup_delete_Some;
    intros Hx; decompose [and or] Hx; simplify_eq;
    try (by eapply Hok);
    match goal with
    | H : resolve_addons _ = [], H' : (length _ =? 0)%nat = false |- _ =>
        rewrite H in H'; discriminate
    end.
Qed.

Lemma step_appends_well_formed (t : Z) (i : Input) (s s' : System) :
  settling_nonempty s →
  Forall well_formed_items (appends (effects s)) →
  step t i s = Some s' →
  Forall well_formed_items (appends (effects s')).
Proof.
  intros Hne Hok Hstep.
  destruct i; crush_step; rewrite ?appends_snoc, ?app_nil_r; eauto.
  all: apply Forall_app; split; [done|]; apply Forall_singleton.
  all: apply addon_items_well_formed; intros ->; by eapply Hne.
Qed.

End Requests.

Section Once.

Lemma appended_once_idle (s : System) :
  tasks s = ∅ →
  appended_once s ↔ length (appends (effects s)) = spawned s.
Proof.
  intros Hm. unfold appended_once, none_settling. rewrite Hm. split.
  - intros [_ H]. apply H. intros tid l. by rewrite lookup_empty.
  - intros H. split; [|done]. intros tid l. by rewrite lookup_empty.
Qed.

Lemma appended_once_busy (s : System) (tid : nat) (k : Task) :
  tasks s = {[tid := k]} →
  appended_once s
  ↔ match k with
    | AwaitSettle _ => S (length (appends (effects s))) = spawned s
    | _ => length (appends (effects s)) = spawned s
    end.
Proof.
  intros Hm. unfold appended_once, none_settling. rewrite Hm. split.
  - intros [H1 H2]. destruct k;
      first [ by eapply (H1 tid), lookup_singleton_eq
            | apply H2; intros tid0 l0 [_ ?]%lookup_singleton_Some; done ].
  - intros H. split.
    + intros tid0 l0 [_ ->]%lookup_singleton_Some. done.
    + intros Hnone. destruct k; try done.
      by destruct (Hnone tid addonsToAdd); rewrite lookup_singleton_eq.
Qed.

Ltac tasks_shape Hm :=
  repeat match goal with
  | H : tasks _ !! _ = Some _ |- _ =>
      first [ destruct (singleton_task _ _ _ _ _ Hm H) as [<- <-]; clear H
            | destruct (singleton_task _ _ _ _ _ Hm H) as [<- ?]; clear H
            | rewrite Hm, lookup_empty in H; discriminate H ]
  end;
  simplify_eq/=;
  unfold park, finish, with_tasks, with_addon in *; simpl in *; rewrite ?Hm;
  rewrite ?insert_singleton_eq, ?delete_singleton_eq, ?insert_empty.

Ltac once_goal :=
  first [ eapply (λ s tid k H, proj2 (appended_once_busy s tid k H));
            [simpl; reflexivity|]
        | eapply (λ s H, proj2 (appended_once_idle s H));
            [simpl; reflexivity|] ];
  simpl; rewrite ?appends_snoc, ?length_app, ?app_nil_r; simpl; try lia.

Lemma step_appended_once (t : Z) (i : Input) (s s' : System) :
  flag_guards s → appended_once s → step t i s = Some s' → appended_once s'.
Proof.
  intros Hflag Honce Hstep. unfold flag_guards in Hflag.
  destruct (isProcessingAddons (addon s)) eqn:Hf.
  - destruct Hflag as (tid & k & Hm).
    apply (appended_once_busy s tid k Hm) in Honce.
    destruct i; crush_step; try congruence; tasks_shape Hm; once_goal.
  - apply (appended_once_idle s Hflag) in Honce.
    destruct i; crush_step; try congruence; tasks_shape Hflag; once_goal.
Qed.

End Once.

(** X4.  Every append request the controller has ever made carries at
    least one item, and every item has quantity one: [addToCart] is never
    called with an empty list. *)
Theorem appends_never_empty (s : System) :
  reachable s → Forall well_formed_items (appends (effects s)).
Proof.
  intros (t0 & boxes & counts & tr & Hrun).
  apply (run_preserves
           (λ s, settling_nonempty s ∧ Forall well_formed_items (appends (effects s))))
    in Hrun as [_ H]; [done| |].
  - intros t i s1 s2 [Hne Hok] Hstep. split.
    + eapply step_settling_nonempty; eauto.
    + eapply step_appends_well_formed; eauto.
  - split; [|constructor]. intros tid. simpl. by rewrite lookup_empty.
Qed.

Lemma appends_never_empty_witness :
  Forall well_formed_items (appends (effects Sample.appended_again)).
Proof.
  apply appends_never_empty.
  exists Sample.t0, [Sample.box "V1"], [],
    (Sample.first_add
       ++ (Sample.t0 + 2000, CartUpdate (Sample.added (Some "b")))
       :: Sample.same_identifier_later).
  vm_compute. reflexivity.
Defined.

(** X5.  Each invocation of [handleCartAdd] that entered the critical
    section makes exactly one append request, when its settle delay ends:
    the requests made so far are as many as the invocations suspended so
    far, less the one still waiting for its delay, if any. *)
Theorem one_append_per_invocation (s : System) :
  reachable s →
  appended_once s
  ∧ (length (appends (effects s)) ≤ spawned s)%nat
  ∧ (spawned s ≤ S (length (appends (effects s))))%nat.
Proof.
  intros Hs.
  assert (appended_once s) as Honce.
  { destruct Hs as (t0 & boxes & counts & tr & Hrun).
    apply (run_preserves (λ s, flag_guards s ∧ appended_once s))
      in Hrun as [_ H]; [done| |].
    - intros t i s1 s2 [Hf Ho] Hstep. split.
      + eapply step_flag_guards; eauto.
      + eapply step_appended_once; eauto.
    - split; [done|]. by apply appended_once_idle. }
  split; [done|].
  pose proof (reachable_flag_guards s Hs) as Hflag. unfold flag_guards in Hflag.
  destruct (isProcessingAddons (addon s)).
  - destruct Hflag as (tid & k & Hm).
    apply (appended_once_busy s tid k Hm) in Honce. destruct k; lia.
  - apply (appended_once_idle s Hflag) in Honce. lia.
Qed.

Lemma one_append_per_invocation_witness :
  length (appends (effects Sample.appended_again)) = spawned Sample.appended_again.
Proof.
  refine (proj2 (proj1 (one_append_per_invocation Sample.appended_again _)) _).
  - exists Sample.t0, [Sample.box "V1"], [],
      (Sample.first_add
         ++ (Sample.t0 + 2000, CartUpdate (Sample.added (Some "b")))
         :: Sample.same_identifier_later).
    vm_compute. reflexivity.
  - intros tid l.
    assert (tasks Sample.appended_again = {[1%nat := AwaitAppend]}) as ->
      by (vm_compute; reflexivity).
    by intros [_ ?]%lookup_singleton_Some.
Defined.

(** ** Error notifications *)

Section Notifications.

Lemma notifications_ok_show (s : System) :
  notifications_ok s → notifications_ok (showErrorMessage s).
Proof.
  intros [Hdup Hall]. split; simpl.
  - apply NoDup_app. split; [done|]. split; [|apply NoDup_singleton].
    intros n Hn ->%list_elem_of_singleton. apply Hall in Hn as [Hlt _]. lia.
  - intros n [Hn | ->%list_elem_of_singleton]%elem_of_app.
    + apply Hall in Hn as [Hlt [d Hd]]. split; [lia|].
      exists d. apply elem_of_app. by left.
    + split; [lia|]. eexists. apply elem_of_app. right.
      by apply list_elem_of_singleton.
Qed.

Lemma notifications_ok_ext (s s' : System) :
  notifications (page s') = notifications (page s) →
  created (page s') = created (page s) →
  (∀ x, x ∈ timers s → x ∈ timers s') →
  notifications_ok s → notifications_ok s'.
Proof.
  intros Hn Hc Ht [Hdup Hall]. split; rewrite Hn; [done|].
  intros n Hin. apply Hall in Hin as [Hlt [d Hd]]. rewrite Hc. eauto.
Qed.

Lemma elem_of_removed (node n : nat) (l : list nat) :
  n ∈ List.filter (λ m, negb (Nat.eqb m node)) l ↔ n ∈ l ∧ n ≠ node.
Proof.
  rewrite !list_elem_of_In, List.filter_In, negb_true_iff, Nat.eqb_neq. done.
Qed.

Lemma notifications_ok_fire (s : System) (k : nat) (tm : Timer) :
  timers s !! k = Some tm →
  notifications_ok s →
  notifications_ok (fire (action tm) (with_timers (delete k) s)).
Proof.
  intros Hk [Hdup Hall]. destruct tm as [d a]. destruct a as [tid| |node]; simpl.
  - assert (notifications_ok (with_timers (delete k) s)) as Hok.
    { split; [done|]. intros n Hin. apply Hall in Hin as [Hlt [d' Hd']].
      split; [done|]. exists d'. simpl.
      eapply elem_of_delete_other; [exact Hk | exact Hd' | done]. }
    destruct (tasks s !! tid) as [[]|];
      first [ done | eapply notifications_ok_ext, Hok; simpl; auto ].
  - split; [done|]. intros n Hin. apply Hall in Hin as [Hlt [d' Hd']].
    split; [done|]. exists d'. simpl.
    eapply elem_of_delete_other; [exact Hk | exact Hd' | done].
  - split; simpl.
    + apply NoDup_ListNoDup, List.NoDup_filter. by apply NoDup_ListNoDup.
    + intros n [Hin Hne]%elem_of_removed. apply Hall in Hin as [Hlt [d' Hd']].
      split; [done|]. exists d'.
      eapply elem_of_delete_other; [exact Hk | exact Hd' | congruence].
Qed.

Lemma step_notifications_ok (t : Z) (i : Input) (s s' : System) :
  notifications_ok s → step t i s = Some s' → notifications_ok s'.
Proof.
  intros Hok Hstep. unfold step in Hstep.
  destruct (t <? clock s); [done|].
  assert (notifications_ok (with_clock t s)) as Hok'
    by (eapply notifications_ok_ext, Hok; auto).
  destruct i; simpl in Hstep.
  - simplify_eq. eapply notifications_ok_ext, Hok'; auto;
      unfold on_submit; by destruct targetMatches.
  - simplify_eq. eapply notifications_ok_ext, Hok';
      [crush_step; done .. |].
    intros x Hx. crush_step; rewrite ?elem_of_app; auto.
  - simplify_eq. eapply notifications_ok_ext, Hok'; auto.
  - destruct (timers s !! k) as [tm|] eqn:Hk; [|done].
    destruct (due tm <=? t); [|done]. simplify_eq.
    by apply (notifications_ok_fire (with_clock t s)).
  - unfold fetch_settles in Hstep. simpl in Hstep.
    destruct (tasks s !! tid) as [[]|]; try done;
      destruct r as [|[|]]; simplify_eq;
      first [ eapply notifications_ok_ext, Hok'; by auto
            | eapply notifications_ok_ext, notifications_ok_show, Hok'; by auto ].
  - unfold body_settles in Hstep. simpl in Hstep.
    destruct (tasks s !! tid) as [[]|]; try done;
      try destruct r as [|j]; simplify_eq;
      first [ eapply notifications_ok_ext, Hok'; by auto
            | eapply notifications_ok_ext, notifications_ok_show, Hok'; by auto
            | idtac ].
    + eapply notifications_ok_ext, Hok'; [crush_step; done .. |].
      intros x Hx. crush_step; rewrite ?elem_of_app; auto.
    + eapply notifications_ok_ext, Hok'; [crush_step; done .. |].
      intros x Hx. crush_step; auto.
Qed.

End Notifications.

Lemma reachable_notifications_ok (s : System) :
  reachable s → notifications_ok s.
Proof.
  intros (t0 & boxes & counts & tr & Hrun).
  apply (run_preserves notifications_ok step_notifications_ok) in Hrun; [done|].
  split; [constructor|]. intros n Hn. simpl in Hn. by apply elem_of_nil in Hn.
Qed.

(** X6.  In every state the controller can reach, the error notifications
    in the page are distinct elements, and each has its removal timer
    pending: none is left on the page for good. *)
Theorem notifications_have_removal_timers (s : System) :
  reachable s →
  NoDup (notifications (page s))
  ∧ ∀ n, n ∈ notifications (page s) →
      ∃ k d, timers s !! k = Some {| due := d; action := RemoveNotification n |}.
Proof.
  intros [Hdup Hall]%reachable_notifications_ok.
  split; [done|]. intros n Hn. apply Hall in Hn as [_ [d Hd]].
  apply list_elem_of_lookup_1 in Hd as [k Hk]. eauto.
Qed.

Lemma notifications_have_removal_timers_witness :
  ∃ k d, timers Scenario.error_shown !! k
         = Some {| due := d; action := RemoveNotification 0 |}.
Proof.
  refine (proj2 (notifications_have_removal_timers Scenario.error_shown _) 0%nat _).
  - exists Sample.t0, [Sample.box "V1"], [],
      (Sample.refused
         ++ [(Sample.t0 + 700, BodySettles 0%nat (Body Sample.sold_out))]).
    vm_compute. reflexivity.
  - vm_compute. apply list_elem_of_here.
Defined.




(** ** After the append: republishing and the cart count *)

Section Refresh.

Lemma body_settles_success (s : System) (tid : nat) (j : Json) (t : Z) :
  tasks s !! tid = Some AwaitAppendBody → clock s ≤ t →
  step t (BodySettles tid (Body j)) s = Some (append_done tid (with_clock t s)).
Proof.
  intros Hk Ht. unfold step. rewrite step_clock by done. simpl.
  unfold body_settles. simpl. by rewrite Hk.
Qed.


Lemma cart_body_step (s : System) (tid : nat) (cart : Json) (t : Z) :
  tasks s !! tid = Some AwaitCartBody → clock s ≤ t →
  step t (BodySettles tid (Body cart)) s
  = Some (show_count tid cart (with_clock t s)).
Proof.
  intros Hk Ht. unfold step. rewrite step_clock by done. simpl.
  unfold body_settles. simpl. by rewrite Hk.
Qed.

End Refresh.

(** X8.  When the append succeeds, the pending set is cleared, the timer
    clearing the processed identifiers is set for 5000 ms later, and exactly
    one [cart:update] event is dispatched, carrying the controller's own tag;
    the controller's own listener ignores it.  The page is untouched (no
    error notification), and the only request that can follow in the same
    step is the fetch of the cart. *)
Theorem append_success_republishes (s : System) (tid : nat) (j : Json) (t : Z) :
  tasks s !! tid = Some AwaitAppendBody → clock s ≤ t →
  ∃ s' rest,
    step t (BodySettles tid (Body j)) s = Some s'
    ∧ pendingAddons (addon s') = None
    ∧ processedEventIds (addon s') = processedEventIds (addon s)
    ∧ timers s' = timers s ++ [ {| due := t + 5000; action := ClearProcessed |} ]
    ∧ page s' = page s
    ∧ effects s' = effects s ++ DispatchCartUpdate self_event :: rest
    ∧ (rest = [] ∨ rest = [Fetch GetCart])
    ∧ on_cart_update self_event s' = s'.
Proof.
  intros Hk Ht. rewrite body_settles_success by done.
  unfold append_done, triggerCartRefresh, updateCartCount. simpl.
  destruct (t - lastCartCountUpdate (addon s) <? 1000).
  - exists (finish tid
              (emit (DispatchCartUpdate self_event)
                 (setTimeout ClearProcessed 5000
                    (with_addon (set_pendingAddons None) (with_clock t s))))), [].
    repeat split; auto.
  - eexists _, [Fetch GetCart]. split; [reflexivity|].
    simpl. rewrite <- app_assoc. repeat split; auto.
Qed.

Lemma append_success_republishes_witness :
  ∃ s' rest,
    step (Sample.t0 + 610) (BodySettles 0%nat (Body (Sample.cart 2))) Scenario.appended
    = Some s'
    ∧ pendingAddons (addon s') = None
    ∧ effects s' = effects Scenario.appended ++ DispatchCartUpdate self_event :: rest.
Proof.
  destruct (append_success_republishes Scenario.appended 0%nat (Sample.cart 2)
              (Sample.t0 + 610))
    as (s' & rest & Hstep & Hp & _ & _ & _ & He & _).
  - reflexivity.
  - vm_compute. discriminate.
  - exists s', rest. split; [exact Hstep|]. split; [exact Hp | exact He].
Defined.

(** X9.  The cart count is refreshed at most once per second: when the
    append succeeds less than 1000 ms after the last refresh, no cart is
    fetched, the time of the last refresh is kept, and the invocation ends
    at once with the flag cleared; otherwise the cart is fetched, the time
    of the last refresh becomes the current time, and the invocation stays
    suspended with the flag as it was. *)
Theorem refresh_rate_limited (s : System) (tid : nat) (j : Json) (t : Z) :
  tasks s !! tid = Some AwaitAppendBody → clock s ≤ t →
  ∃ s', step t (BodySettles tid (Body j)) s = Some s'
    ∧ (t - lastCartCountUpdate (addon s) < 1000 →
         effects s' = effects s ++ [DispatchCartUpdate self_event]
         ∧ lastCartCountUpdate (addon s') = lastCartCountUpdate (addon s)
         ∧ tasks s' = delete tid (tasks s)
         ∧ isProcessingAddons (addon s') = false)
    ∧ (1000 ≤ t - lastCartCountUpdate (addon s) →
         effects s' = effects s ++ [DispatchCartUpdate self_event; Fetch GetCart]
         ∧ lastCartCountUpdate (addon s') = t
         ∧ tasks s' = <[tid := AwaitCart]> (tasks s)
         ∧ isProcessingAddons (addon s') = isProcessingAddons (addon s)).
Proof.
  intros Hk Ht. rewrite body_settles_success by done.
  eexists. split; [reflexivity|].
  unfold append_done, triggerCartRefresh, updateCartCount. simpl.
  destruct (Z.ltb_spec (t - lastCartCountUpdate (addon s)) 1000).
  - split; [done | lia].
  - split; [lia|]. intros _. simpl. by rewrite <- app_assoc.
Qed.

Lemma refresh_rate_limited_witness :
  ∃ s', step (Sample.t0 + 610) (BodySettles 0%nat (Body (Sample.cart 2))) Scenario.appended
        = Some s'
    ∧ lastCartCountUpdate (addon s') = Sample.t0 + 610
    ∧ tasks s' = <[0%nat := AwaitCart]> (tasks Scenario.appended).
Proof.
  destruct (refresh_rate_limited Scenario.appended 0%nat (Sample.cart 2) (Sample.t0 + 610))
    as (s' & Hstep & _ & Hfetch).
  - reflexivity.
  - vm_compute. discriminate.
  - destruct Hfetch as (_ & Hlast & Htasks & _); [vm_compute; discriminate|].
    exists s'. split; [exact Hstep|]. split; [exact Hlast | exact Htasks].
Defined.



(** X11.  When the fetched cart gives an item count, the text of every
    count display becomes the string [toString] gives for that count, their
    number unchanged; for a count within ±2^53 its characters are the count
    in plain decimal.  One [cart:count-updated] event carrying the count is
    dispatched, and the invocation ends with the flag cleared, no
    notification inserted. *)
Theorem cart_count_is_displayed
    (s : System) (tid : nat) (cart : Json) (n t : Z) :
  tasks s !! tid = Some AwaitCartBody → clock s ≤ t →
  item_count cart = Some n →
  ∃ s', step t (BodySettles tid (Body cart)) s = Some s'
    ∧ length (cartCounts (page s')) = length (cartCounts (page s))
    ∧ Forall (λ text, text = NumberToString n) (cartCounts (page s'))
    ∧ (Z.abs n ≤ 2 ^ 53 →
       Forall (λ text, characters text = Some (pretty n)) (cartCounts (page s')))
    ∧ notifications (page s') = notifications (page s)
    ∧ checkboxes (page s') = checkboxes (page s)
    ∧ effects s' = effects s ++ [DispatchCountUpdated (Some n)]
    ∧ isProcessingAddons (addon s') = false
    ∧ tasks s' = delete tid (tasks s).
Proof.
  intros Hk Ht Hn. rewrite cart_body_step by done.
  unfold show_count. simpl. rewrite Hn.
  eexists. split; [reflexivity|]. simpl.
  split; [by rewrite length_fmap|].
  split; [apply Forall_fmap, Forall_forall; done|].
  split; [|done]. intros Hsafe.
  apply Forall_fmap, Forall_forall. intros c _. simpl.
  by rewrite (proj2 (Z.leb_le _ _) Hsafe).
Qed.

Lemma cart_count_is_displayed_witness :
  ∃ s', step (Sample.t0 + 710) (BodySettles 0%nat (Body (Sample.cart 12)))
          Scenario.counting = Some s'
    ∧ cartCounts (page s') = [NumberToString 12; NumberToString 12]
    ∧ Forall (λ text, characters text = Some "12"%string) (cartCounts (page s')).
Proof.
  destruct (cart_count_is_displayed Scenario.counting 0%nat (Sample.cart 12) 12
              (Sample.t0 + 710))
    as (s' & Hstep & Hlen & Hall & Hdec & _).
  - reflexivity.
  - vm_compute. discriminate.
  - reflexivity.
  - exists s'. split; [exact Hstep|]. split.
    + destruct (cartCounts (page s')) as [|a [|b [|c l]]]; try discriminate Hlen.
      apply Forall_cons in Hall as [-> Hall].
      apply Forall_cons in Hall as [-> _]. reflexivity.
    + apply Hdec. vm_compute. discriminate.
Defined.

(** X12.  When the fetched cart has no item count: with at least one count
    display on the page nothing is displayed and no event is dispatched (the
    error raised at the first display is absorbed); with no count display a
    [cart:count-updated] event is dispatched without a count.  Either way the
    page is untouched and the invocation ends with the flag cleared. *)
Theorem missing_item_count (s : System) (tid : nat) (cart : Json) (t : Z) :
  tasks s !! tid = Some AwaitCartBody → clock s ≤ t →
  item_count cart = None →
  ∃ s', step t (BodySettles tid (Body cart)) s = Some s'
    ∧ page s' = page s
    ∧ (cartCounts (page s) ≠ [] → effects s' = effects s)
    ∧ (cartCounts (page s) = [] →
       effects s' = effects s ++ [DispatchCountUpdated None])
    ∧ isProcessingAddons (addon s') = false
    ∧ tasks s' = delete tid (tasks s).
Proof.
  intros Hk Ht Hn. rewrite cart_body_step by done.
  unfold show_count. simpl. rewrite Hn.
  destruct (cartCounts (page s)) as [|c l] eqn:Hc;
    (eexists; split; [reflexivity|]); simpl; repeat split; done.
Qed.

Lemma missing_item_count_witness :
  ∃ s', step (Sample.t0 + 710) (BodySettles 0%nat (Body Sample.sold_out))
          Scenario.counting = Some s'
    ∧ page s' = page Scenario.counting
    ∧ effects s' = effects Scenario.counting.
Proof.
  destruct (missing_item_count Scenario.counting 0%nat Sample.sold_out (Sample.t0 + 710))
    as (s' & Hstep & Hp & He & _).
  - reflexivity.
  - vm_compute. discriminate.
  - reflexivity.
  - exists s'. split; [exact Hstep|]. split; [exact Hp|].
    apply He. vm_compute. discriminate.
Defined.

(** ** When no add-on is selected *)

Section Unselected.

Lemma step_untouched (t : Z) (i : Input) (s s' : System) :
  untouched s → leaves_unchecked i = true → step t i s = Some s' → untouched s'.
Proof.
  intros (Hboxes & Hp & Hf & Hk & Htm & He & Hn) Hi Hstep.
  pose proof (getCheckedAddons_unchecked (page s) Hboxes) as Hread.
  unfold step in Hstep. destruct (t <? clock s); [done|].
  destruct i; simpl in Hstep.
  - simplify_eq. unfold on_submit, handleFormSubmit. simpl.
    destruct targetMatches; rewrite ?Hread; simpl; done.
  - simplify_eq.
    destruct (accepted event (with_clock t s)) eqn:Hacc.
    + rewrite on_cart_update_accepted by done.
      rewrite enter_empty
        by (unfold resolve_addons; simpl; by rewrite Hp).
      done.
    + rewrite on_cart_update_unaccepted by done. done.
  - simplify_eq. simpl in Hi. repeat split; try done. simpl.
    apply Forall_forall. intros cb Hcb.
    rewrite forallb_forall in Hi. apply negb_true_iff, Hi.
    by apply list_elem_of_In.
  - simpl in Hstep. by rewrite Htm in Hstep.
  - unfold fetch_settles in Hstep. simpl in Hstep.
    by rewrite Hk, lookup_empty in Hstep.
  - unfold body_settles in Hstep. simpl in Hstep.
    by rewrite Hk, lookup_empty in Hstep.
Qed.

End Unselected.

(** X13.  If no add-on checkbox is checked when the page loads and none is
    checked later, then whatever notifications and submissions arrive, the
    controller never makes a request, dispatches an event, sets a timer,
    shows a notification, sets its flag or stores a pending set. *)
Theorem nothing_selected_nothing_done
    (t0 : Z) (boxes : list Checkbox) (counts : list string)
    (tr : list (Z * Input)) (s : System) :
  Forall (λ cb, checked cb = false) boxes →
  forallb (λ ti, leaves_unchecked ti.2) tr = true →
  run (boot t0 boxes counts) tr = Some s →
  effects s = [] ∧ timers s = [] ∧ tasks s = ∅
  ∧ notifications (page s) = []
  ∧ isProcessingAddons (addon s) = false
  ∧ pendingAddons (addon s) = None.
Proof.
  intros Hboxes Htr Hrun.
  assert (untouched s) as (_ & Hp & Hf & Hk & Htm & He & Hn); [|done].
  assert (untouched (boot t0 boxes counts)) as Hinit by done.
  revert Hinit Hrun. generalize (boot t0 boxes counts).
  induction tr as [|[t i] tr IH]; simpl in *; intros s0 H0 Hrun.
  - by simplify_eq.
  - apply andb_prop in Htr as [Hi Htr].
    destruct (step t i s0) as [s1|] eqn:Hstep; [|done].
    eapply IH; [done| |done]. by eapply step_untouched.
Qed.

Lemma nothing_selected_nothing_done_witness :
  ∃ s, run (boot Sample.t0 [Sample.unchecked (Sample.box "V1")] [])
         [(Sample.t0 + 10, Submit true);
          (Sample.t0 + 200, CartUpdate (Sample.added (Some "a")))] = Some s
       ∧ effects s = [] ∧ timers s = [].
Proof.
  eexists. split; [vm_compute; reflexivity|].
  destruct (nothing_selected_nothing_done Sample.t0
              [Sample.unchecked (Sample.box "V1")] []
              [(Sample.t0 + 10, Submit true);
               (Sample.t0 + 200, CartUpdate (Sample.added (Some "a")))]
              _ ltac:(repeat constructor) eq_refl
              ltac:(vm_compute; reflexivity)) as (He & Htm & _).
  by rewrite He, Htm.
Defined.

(** ** Which add-ons are appended *)

Section Resolution.

Lemma bystander_step (t : Z) (i : Input) (s s' : System) :
  bystander i = true → step t i s = Some s' →
  tasks s' = tasks s ∧ timers s' = timers s ∧ effects s' = effects s
  ∧ clock s ≤ clock s'.
Proof.
  intros Hi Hstep. unfold step in Hstep.
  destruct (Z.ltb_spec t (clock s)); [done|].
  destruct i; try done; simplify_eq; [|done].
  unfold on_submit. by destruct targetMatches.
Qed.

Lemma bystander_run (tr : list (Z * Input)) (s s' : System) :
  forallb (λ ti, bystander ti.2) tr = true → run s tr = Some s' →
  tasks s' = tasks s ∧ timers s' = timers s ∧ effects s' = effects s.
Proof.
  revert s. induction tr as [|[t i] tr IH]; simpl; intros s Hb Hrun.
  - by simplify_eq.
  - apply andb_prop in Hb as [Hi Hb].
    destruct (step t i s) as [s1|] eqn:Hstep; [|done].
    destruct (bystander_step t i s s1 Hi Hstep) as (Hk & Htm & He & _).
    destruct (IH s1 Hb Hrun) as (Hk' & Htm' & He'). by rewrite Hk', Htm', He'.
Qed.

End Resolution.

(** X14.  A set captured at submit is what gets appended: with a pending
    set present, an accepted notification appends the items of that set
    whatever the checkboxes show by then, even if every add-on has been
    unchecked in between. *)
Theorem captured_set_is_appended
    (s : System) (l : list Addon) (boxes : list Checkbox) (event : CartEvent)
    (t1 t2 t3 : Z) :
  pendingAddons (addon s) = Some l → l ≠ [] →
  accepted event s = true →
  clock s ≤ t1 → t1 ≤ t2 → t2 + 300 ≤ t3 →
  ∃ s1 s2 s3,
    step t1 (DomChange boxes) s = Some s1
    ∧ step t2 (CartUpdate event) s1 = Some s2
    ∧ step t3 (TimerFires (length (timers s))) s2 = Some s3
    ∧ effects s3 = effects s ++ [Fetch (PostCartAdd (addon_item <$> l))].
Proof.
  intros Hp Hne Hacc Ht1 Ht2 Ht3.
  set (s1 := with_page (set_checkboxes boxes) (with_clock t1 s)).
  assert (step t1 (DomChange boxes) s = Some s1) as Hs1
    by (unfold step; by rewrite step_clock).
  assert (resolve_addons s1 = l) as Hres
    by (unfold resolve_addons; simpl; by rewrite Hp).
  destruct (accepted_then_settled s1 t2 t3 event) as (s2 & s3 & H2 & _ & H3 & He);
    [done | done | done | by rewrite Hres |].
  exists s1, s2, s3. rewrite Hres in He. done.
Qed.

Lemma captured_set_is_appended_witness :
  ∃ s1 s2 s3,
    step (Sample.t0 + 20) (DomChange [Sample.unchecked (Sample.box "V1")])
      Sample.submitted = Some s1
    ∧ step (Sample.t0 + 200) (CartUpdate (Sample.added (Some "a"))) s1 = Some s2
    ∧ step (Sample.t0 + 500) (TimerFires 0%nat) s2 = Some s3
    ∧ effects s3 = effects Sample.submitted
                   ++ [Fetch (PostCartAdd (addon_item <$> [Sample.entry "V1"]))].
Proof.
  apply (captured_set_is_appended Sample.submitted [Sample.entry "V1"]
           [Sample.unchecked (Sample.box "V1")] (Sample.added (Some "a"))
           (Sample.t0 + 20) (Sample.t0 + 200) (Sample.t0 + 500));
    first [reflexivity | discriminate | vm_compute; discriminate].
Defined.

(** X15.  The items of the append are fixed when the notification is
    accepted: submissions and changes of the checkboxes made while the
    invocation waits for its settle delay change neither what is requested
    when the delay ends nor anything else of the invocation. *)
Theorem items_fixed_during_delay
    (s s' : System) (tid k : nat) (l : list Addon) (d t : Z)
    (tr : list (Z * Input)) :
  tasks s !! tid = Some (AwaitSettle l) →
  timers s !! k = Some {| due := d; action := ResumeSettle tid |} →
  forallb (λ ti, bystander ti.2) tr = true →
  run s tr = Some s' →
  clock s' ≤ t → d ≤ t →
  ∃ s'', step t (TimerFires k) s' = Some s''
    ∧ effects s'' = effects s ++ [Fetch (PostCartAdd (addon_item <$> l))]
    ∧ tasks s'' = <[tid := AwaitAppend]> (tasks s).
Proof.
  intros Hk Htm Hb Hrun Ht Hd.
  destruct (bystander_run tr s s' Hb Hrun) as (Hk' & Htm' & He').
  unfold step. rewrite step_clock by done. simpl.
  rewrite Htm', Htm. simpl. rewrite (proj2 (Z.leb_le _ _) Hd). simpl.
  rewrite Hk', Hk. eexists. split; [reflexivity|].
  unfold resume_settle. simpl. by rewrite He', Hk'.
Qed.

Lemma items_fixed_during_delay_witness :
  ∃ s'', step (Sample.t0 + 520) (TimerFires 0%nat) Scenario.resubmitted_meanwhile = Some s''
    ∧ effects s''
      = effects Scenario.settling
        ++ [Fetch (PostCartAdd (addon_item <$> [Sample.entry "V1"]))].
Proof.
  destruct (items_fixed_during_delay Scenario.settling Scenario.resubmitted_meanwhile
              0%nat 0%nat [Sample.entry "V1"] (Sample.t0 + 500) (Sample.t0 + 520)
              Scenario.meanwhile)
    as (s'' & Hstep & He & _);
    try first [reflexivity | vm_compute; reflexivity | vm_compute; discriminate].
  exists s''. split; [exact Hstep | exact He].
Defined.

(** ** The end of an invocation *)

Section Completion.

Lemma resume_exists (s : System) (tid : nat) (k : Task) :
  settle_armed s → tasks s !! tid = Some k → ∃ t i, resumes t s tid i.
Proof.
  intros Harmed Hk. unfold resumes. rewrite Hk. destruct k.
  - destruct (Harmed _ _ Hk) as [d [kk Hkk]%list_elem_of_lookup_1].
    exists (Z.max (clock s) d), (TimerFires kk).
    split; [lia|]. exists kk, d. split; [done|]. split; [done|lia].
  - exists (clock s), (FetchSettles tid FetchRejected). split; [lia|eauto].
  - exists (clock s), (BodySettles tid BodyRejected). split; [lia|eauto].
  - exists (clock s), (BodySettles tid BodyRejected). split; [lia|eauto].
  - exists (clock s), (FetchSettles tid FetchRejected). split; [lia|eauto].
  - exists (clock s), (BodySettles tid BodyRejected). split; [lia|eauto].
Qed.

Lemma resume_progress (s : System) (tid : nat) (k : Task) (t : Z) (i : Input) :
  flag_guards s → tasks s !! tid = Some k → resumes t s tid i →
  ∃ s', step t i s = Some s'
    ∧ ((tasks s' = ∅ ∧ isProcessingAddons (addon s') = false)
       ∨ (∃ k', tasks s' = {[tid := k']}
                ∧ (remaining k' < remaining k)%nat)).
Proof.
  unfold flag_guards. intros Hflag Hk [Ht Hi]. rewrite Hk in Hi.
  destruct (isProcessingAddons (addon s)) eqn:Hf;
    [|by rewrite Hflag, lookup_empty in Hk].
  destruct Hflag as (tid' & k' & Hm).
  destruct (singleton_task _ _ _ _ _ Hm Hk) as [-> ->].
  destruct k; repeat match goal with
                     | H : ∃ _, _ |- _ => destruct H
                     | H : _ ∧ _ |- _ => destruct H
                     end; subst i;
    unfold step; rewrite step_clock by done; simpl.
  all: repeat match goal with
       | H : timers _ !! _ = Some _ |- _ => rewrite H; simpl
       | H : ?d ≤ ?t |- context [?d <=? ?t] =>
           rewrite (proj2 (Z.leb_le d t) H)
       end.
  all: unfold fetch_settles, body_settles, fire; simpl; rewrite ?Hk.
  all: repeat match goal with
       | |- context [match ?r with FetchRejected => _ | _ => _ end] =>
           destruct r as [|[|]]
       | |- context [match ?r with BodyRejected => _ | _ => _ end] =>
           destruct r as [|?]
       end.
  all: eexists; (split; [reflexivity|]).
  all: crush_step; rewrite ?Hm, ?insert_singleton_eq, ?delete_singleton_eq.
  all: first [ left; split; [reflexivity | done]
             | right; eexists; split; [reflexivity | simpl; lia] ].
Qed.

End Completion.

(** X16.  A suspended invocation ends after at most five resumptions,
    whatever their outcomes: any sequence of resumptions from a reachable
    state runs, is no longer than the bound [remaining] of the suspension
    point it starts from, and a sequence as long as that bound leaves no
    invocation suspended and the flag cleared.  A sequence of resumptions
    that ends the invocation always exists. *)
Theorem invocation_ends_within_bound (s : System) (tid : nat) (k : Task) :
  reachable s → tasks s !! tid = Some k →
  (remaining k ≤ 5)%nat
  ∧ (∀ tr, resumptions s tid tr →
       (length tr ≤ remaining k)%nat
       ∧ ∃ s', run s tr = Some s'
           ∧ (length tr = remaining k →
              tasks s' = ∅ ∧ isProcessingAddons (addon s') = false))
  ∧ (∃ tr s', resumptions s tid tr ∧ run s tr = Some s'
              ∧ tasks s' = ∅ ∧ isProcessingAddons (addon s') = false).
Proof.
  intros Hs Hk. split; [destruct k; simpl; lia|]. split.
  - intros tr. revert s k Hs Hk.
    induction tr as [|[t i] tr IH]; intros s k Hs Hk Hres.
    + split; [simpl; lia|]. exists s. split; [done|].
      simpl. destruct k; discriminate.
    + destruct Hres as [Hi Hrest].
      destruct (resume_progress s tid k t i (reachable_flag_guards s Hs) Hk Hi)
        as (s1 & Hstep & Hcase).
      specialize (Hrest s1 Hstep). simpl. rewrite Hstep.
      pose proof (reachable_step t i s s1 Hs Hstep) as Hs1.
      destruct Hcase as [[Hempty Hf] | (k' & Hm & Hlt)].
      * destruct tr as [|[t' i'] tr].
        -- split; [destruct k; simpl; lia|]. exists s1. done.
        -- destruct Hrest as [[_ Hbad] _]. by rewrite Hempty, lookup_empty in Hbad.
      * assert (tasks s1 !! tid = Some k') as Hk'
          by (rewrite Hm; apply lookup_singleton_eq).
        destruct (IH s1 k' Hs1 Hk' Hrest) as (Hlen & s' & Hrun & Hend).
        split; [lia|]. exists s'. split; [done|]. intros Heq. apply Hend. lia.
  - remember (remaining k) as n eqn:Hn.
    assert (remaining k ≤ n)%nat as Hle by lia. clear Hn.
    revert s k Hs Hk Hle. induction n as [|n IH]; intros s k Hs Hk Hle.
    { destruct k; simpl in Hle; lia. }
    destruct (resume_exists s tid k (reachable_settle_armed s Hs) Hk) as (t & i & Hi).
    destruct (resume_progress s tid k t i (reachable_flag_guards s Hs) Hk Hi)
      as (s1 & Hstep & Hcase).
    pose proof (reachable_step t i s s1 Hs Hstep) as Hs1.
    destruct Hcase as [[Hempty Hf] | (k' & Hm & Hlt)].
    + exists [(t, i)], s1. simpl. rewrite Hstep.
      split; [|done]. split; [done|]. intros s2 _. exact I.
    + assert (tasks s1 !! tid = Some k') as Hk'
        by (rewrite Hm; apply lookup_singleton_eq).
      destruct (IH s1 k' Hs1 Hk' ltac:(lia)) as (tr & s' & Hres & Hrun & Hend).
      exists ((t, i) :: tr), s'. simpl. rewrite Hstep.
      split; [|done]. split; [done|]. intros s2 Hs2. by simplify_eq.
Qed.

Lemma invocation_ends_within_bound_witness :
  ∃ tr s', resumptions Scenario.settling 0%nat tr ∧ run Scenario.settling tr = Some s'
           ∧ tasks s' = ∅ ∧ isProcessingAddons (addon s') = false.
Proof.
  refine (proj2 (proj2 (invocation_ends_within_bound Scenario.settling 0%nat
                          (AwaitSettle [Sample.entry "V1"]) _ _))).
  - exists Sample.t0, [Sample.box "V1"], [],
      [(Sample.t0 + 10, Submit true);
       (Sample.t0 + 200, CartUpdate (Sample.added (Some "a")))].
    vm_compute. reflexivity.
  - reflexivity.
Defined.

(** ** Further edge cases *)



(** X18.  A capture made while an append is in flight is lost when that
    append succeeds: the submission stores the selections read, and the
    success of the earlier append then resets the pending set to absent. *)
Theorem capture_during_append_is_lost
    (s : System) (tid : nat) (j : Json) (t1 t2 : Z) :
  tasks s !! tid = Some AwaitAppendBody →
  getCheckedAddons (page s) ≠ [] →
  clock s ≤ t1 → t1 ≤ t2 →
  ∃ s1 s2,
    step t1 (Submit true) s = Some s1
    ∧ pendingAddons (addon s1) = Some (getCheckedAddons (page s))
    ∧ step t2 (BodySettles tid (Body j)) s1 = Some s2
    ∧ pendingAddons (addon s2) = None.
Proof.
  intros Hk Hread Ht1 Ht2.
  set (s1 := on_submit true (with_clock t1 s)).
  assert (tasks s1 = tasks s) as Hk1 by done.
  exists s1, (append_done tid (with_clock t2 s1)).
  split; [unfold step; by rewrite step_clock|].
  split.
  { subst s1. unfold on_submit, handleFormSubmit. simpl.
    by destruct (getCheckedAddons (page s)). }
  split.
  - apply body_settles_success; [by rewrite Hk1 | done].
  - unfold append_done, triggerCartRefresh, updateCartCount. simpl.
    by destruct (t2 - _ <? 1000).
Qed.

Lemma capture_during_append_is_lost_witness :
  ∃ s1 s2,
    step (Sample.t0 + 605) (Submit true) Scenario.appended = Some s1
    ∧ pendingAddons (addon s1) = Some (getCheckedAddons (page Scenario.appended))
    ∧ step (Sample.t0 + 610) (BodySettles 0%nat (Body (Sample.cart 2))) s1 = Some s2
    ∧ pendingAddons (addon s2) = None.
Proof.
  apply (capture_during_append_is_lost Scenario.appended 0%nat (Sample.cart 2)
           (Sample.t0 + 605) (Sample.t0 + 610));
    first [reflexivity | discriminate | vm_compute; discriminate].
Defined.

(** X19.  With no pending set, an accepted notification appends what is
    checked when it arrives: the items are those of the selections read from
    the page at that moment, and the pending set stays absent. *)
Theorem unsubmitted_selection_is_read
    (s : System) (event : CartEvent) (t2 t3 : Z) :
  pendingAddons (addon s) = None →
  getCheckedAddons (page s) ≠ [] →
  accepted event s = true →
  clock s ≤ t2 → t2 + 300 ≤ t3 →
  ∃ s2 s3,
    step t2 (CartUpdate event) s = Some s2
    ∧ pendingAddons (addon s2) = None
    ∧ step t3 (TimerFires (length (timers s))) s2 = Some s3
    ∧ effects s3
      = effects s ++ [Fetch (PostCartAdd (addon_item <$> getCheckedAddons (page s)))].
Proof.
  intros Hp Hread Hacc Ht2 Ht3.
  assert (resolve_addons s = getCheckedAddons (page s)) as Hres
    by (unfold resolve_addons; by rewrite Hp).
  destruct (accepted_then_settled s t2 t3 event) as (s2 & s3 & H2 & _ & H3 & He);
    [done | done | done | by rewrite Hres |].
  exists s2, s3. rewrite Hres in He. split; [done|]. split; [|done].
  revert H2. unfold step. rewrite step_clock by done.
  rewrite on_cart_update_accepted by done.
  rewrite enter_nonempty
    by (unfold resolve_addons; simpl; by rewrite Hp).
  by intros [= <-].
Qed.

Lemma unsubmitted_selection_is_read_witness :
  ∃ s2 s3,
    step (Sample.t0 + 200) (CartUpdate (Sample.added None))
      (boot Sample.t0 Sample.two_boxes []) = Some s2
    ∧ pendingAddons (addon s2) = None
    ∧ step (Sample.t0 + 500) (TimerFires 0%nat) s2 = Some s3
    ∧ effects s3
      = [Fetch (PostCartAdd (addon_item <$> [Sample.entry "V1"; Sample.entry "V2"]))].
Proof.
  apply (unsubmitted_selection_is_read (boot Sample.t0 Sample.two_boxes [])
           (Sample.added None) (Sample.t0 + 200) (Sample.t0 + 500));
    first [reflexivity | discriminate | vm_compute; discriminate].
Defined.

(** X20.  A checked add-on whose container has no variant identifier is
    still appended: the request carries for it an item of quantity one with
    no [id]. *)
Theorem missing_variant_is_posted_without_id
    (s : System) (event : CartEvent) (cb : Checkbox) (ds : Dataset) (t2 t3 : Z) :
  pendingAddons (addon s) = None →
  checked_checkboxes (page s) = [cb] →
  closest cb = Some {| dataset := Some ds |} →
  addonVariantId ds = None →
  accepted event s = true →
  clock s ≤ t2 → t2 + 300 ≤ t3 →
  ∃ s2 s3,
    step t2 (CartUpdate event) s = Some s2
    ∧ step t3 (TimerFires (length (timers s))) s2 = Some s3
    ∧ effects s3
      = effects s ++ [Fetch (PostCartAdd [ {| id := None; quantity := 1 |} ])].
Proof.
  intros Hp Hboxes Hc Hv Hacc Ht2 Ht3.
  assert (resolve_addons s
          = [ {| productId := addonProductId ds; variantId := None;
                 price := addonPrice ds |} ]) as Hres.
  { unfold resolve_addons. rewrite Hp, getCheckedAddons_checked, Hboxes.
    simpl. unfold read_addon. rewrite Hc. simpl. by rewrite Hv. }
  destruct (accepted_then_settled s t2 t3 event) as (s2 & s3 & H2 & _ & H3 & He);
    [done | done | done | by rewrite Hres |].
  exists s2, s3. rewrite Hres in He. done.
Qed.

Lemma missing_variant_is_posted_without_id_witness :
  ∃ s2 s3,
    step (Sample.t0 + 200) (CartUpdate (Sample.added None))
      (boot Sample.t0 [Sample.bare_box] []) = Some s2
    ∧ step (Sample.t0 + 500) (TimerFires 0%nat) s2 = Some s3
    ∧ effects s3 = [Fetch (PostCartAdd [ {| id := None; quantity := 1 |} ])].
Proof.
  apply (missing_variant_is_posted_without_id (boot Sample.t0 [Sample.bare_box] [])
           (Sample.added None) Sample.bare_box
           {| addonProductId := None; addonVariantId := None; addonPrice := None |}
           (Sample.t0 + 200) (Sample.t0 + 500));
    first [reflexivity | vm_compute; discriminate].
Defined.
